(** * NeuroHabit: habit statistics, pet state and risk prediction

    A shallow embedding of the parts of the NeuroHabit front end that compute
    values (the statistics of [HabitGraph], the visual state of [Pet]) and of
    the engine components that the repository only documents
    ([GamificationEngine], [StreakCalculator], [RiskPredictor]).

    The later part covers the rest of the front end that decides anything:
    the axios interceptors and calls of [services/api.ts], the rating bars
    of [HabitCard], the handlers and render guards of the [Dashboard] page
    (as trees of effects, run against an arbitrary network and user) and
    the routes of [App].

    JavaScript numbers that reach these functions come out of JSON or out of
    integer arithmetic, so they are finite; they are modelled as exact
    rationals ([Q]).  Counters that the code only ever increments from zero
    are integers ([Z]).  Sums and quotients of numbers are rounded as
    binary64 arithmetic rounds them ([Binary64]), and a result that is not
    a finite number (an infinity or NaN) is [None]. *)

From Stdlib Require Import ZArith QArith Qround Qminmax List String Bool Lia Lqa.
From Stdlib Require Import DecimalString Qreduction Qabs Permutation.
From Equations Require Import Equations.
Import ListNotations.

Set Implicit Arguments.

(** ** JavaScript comparison operators on finite numbers *)

Module JS.

(** [x > y] *)
Definition gt (x y : Q) : bool := negb (Qle_bool x y).

(** [x >= y] *)
Definition ge (x y : Q) : bool := Qle_bool y x.

(** [Math.floor] followed by the implicit conversion back to a number. *)
Definition floor (x : Q) : Q := inject_Z (Qfloor x).

(** [array.length] as a number. *)
Definition length {A : Type} (l : list A) : Q :=
  inject_Z (Z.of_nat (List.length l)).

End JS.

(** ** Binary64 arithmetic on finite numbers

    The sum or quotient of two doubles is the double nearest to the exact
    result, ties going to the even significand; it is an infinity when that
    is out of range, and a division by zero gives an infinity or NaN. *)

Module Binary64.

Local Open Scope Q_scope.

(** [2^e] for any integer exponent. *)
Definition pow2 (e : Z) : Q :=
  if (0 <=? e)%Z then inject_Z (2 ^ e) else / inject_Z (2 ^ (- e)).

(** Rounding to the nearest integer, ties to even. *)
Definition nearest_even (x : Q) : Z :=
  let f := Qfloor x in
  match Qcompare (x - inject_Z f) (1 # 2) with
  | Lt => f
  | Gt => (f + 1)%Z
  | Eq => if Z.even f then f else (f + 1)%Z
  end.

(** The exponent of the unit in the last place of the double nearest to
    [a > 0]: the [e] with [2^52 <= a / 2^e < 2^53], but not below the
    exponent of the subnormal numbers. *)
Definition ulp_exponent (a : Q) : Z :=
  let e0 := (Z.log2 (Qnum a) - Z.log2 (Zpos (Qden a)) - 52)%Z in
  let e1 :=
    if Qle_bool (inject_Z (2 ^ 52)) (a / pow2 e0) then e0 else (e0 - 1)%Z in
  Z.max e1 (-1074).

(** The double nearest to [a > 0], were the exponent unbounded above. *)
Definition round_positive (a : Q) : Q :=
  let e := ulp_exponent a in
  inject_Z (nearest_even (a / pow2 e)) * pow2 e.

(** The finite double nearest to [x], or [None] when rounding overflows to
    an infinity. *)
Definition round (x : Q) : option Q :=
  let c := Qred x in
  let r :=
    match Qnum c with
    | Z0 => 0
    | Zpos _ => round_positive c
    | Zneg _ => - round_positive (- c)
    end in
  if Qle_bool (pow2 1024) (Qabs r) then None else Some (Qred r).

(** [x + y] *)
Definition add (x y : Q) : option Q := round (x + y).

(** [x / y]: not a finite number when [y] is zero. *)
Definition div (x y : Q) : option Q :=
  if Qeq_bool y 0 then None else round (x / y).

(** [sum + y] where [sum] may already be an infinity or NaN, which adding
    a finite number does not change. *)
Definition plus (sum : option Q) (y : Q) : option Q :=
  match sum with
  | Some x => add x y
  | None => None
  end.

(** [x / y] where [x] may already be an infinity or NaN. *)
Definition over (x : option Q) (y : Q) : option Q :=
  match x with
  | Some q => div q y
  | None => None
  end.

End Binary64.

(** ** Runs of satisfied periods in a list of markers *)

Module Runs.

Local Open Scope Z_scope.

(** The length of the run of [true] at the head of the list: a walk that
    stops at the first [false]. *)
Fixpoint leading (markers : list bool) : Z :=
  match markers with
  | true :: rest => 1 + leading rest
  | _ => 0
  end.

(** One step of a pass that tracks runs: the state is the length of the run
    that ends at the marker just read and the longest run seen so far. *)
Definition pass_step (st : Z * Z) (marker : bool) : Z * Z :=
  let '(run, best) := st in
  if marker then (run + 1, Z.max best (run + 1)) else (0, best).

(** The longest run of [true], found by one pass from the first marker to
    the last. *)
Definition longest (markers : list bool) : Z :=
  snd (fold_left pass_step markers (0, 0)).

End Runs.

(** ** HabitGraph.tsx *)

Module HabitGraph.

Local Open Scope Q_scope.

(** One element of the [data] prop. *)
Record DataPoint : Type := {
  date : string;
  completions : Q;
  target : option Q
}.

Inductive ChartType : Type := line | bar.

(** [type] and [title] are optional props. *)
Record HabitGraphProps : Type := {
  data : list DataPoint;
  type : option ChartType;
  title : option string
}.

(** What [generateSampleData] reads from its surroundings: the clock
    ([new Date()], as a day number), the successive results of
    [Math.random()] (draw [k] is the [k]-th call), and the formatting done
    by [toLocaleDateString]. *)
Record Host : Type := {
  today : Z;
  random : nat -> Q;
  toLocaleDateString : Z -> string
}.

(** [Math.random()] returns a number in the half-open interval from 0 to 1. *)
Definition RandomOk (h : Host) : Prop :=
  forall k : nat, 0 <= random h k /\ random h k < 1.

(** The body of the [for (let i = 13; i >= 0; i--)] loop; [n] is [i + 1],
    [k] counts the calls to [Math.random] made so far. *)
Fixpoint generateSampleData_loop
    (h : Host) (n k : nat) (data : list DataPoint) : list DataPoint :=
  match n with
  | O => data
  | S i =>
      generateSampleData_loop h i (S k)
        (data ++ [ {| date := toLocaleDateString h (today h - Z.of_nat i);
                      completions := JS.floor (random h k * 8) + 2;
                      target := Some 7 |} ])
  end.

Definition generateSampleData (h : Host) : list DataPoint :=
  generateSampleData_loop h 14 0 [].

Definition calculateTotal (data : list DataPoint) : option Q :=
  fold_left (fun sum item => Binary64.plus sum (completions item))
            data (Some 0).

Definition calculateAverage (data : list DataPoint) : option Q :=
  if Nat.eqb (List.length data) 0 then Some 0
  else Binary64.over (calculateTotal data) (JS.length data).

(** The loop [for (let i = data.length - 1; i >= 0; i--)]; [n] is [i + 1].
    Reading [data[i]] past the end cannot happen, since [i] starts below
    the length and only decreases. *)
Fixpoint calculateStreak_loop
    (data : list DataPoint) (n : nat) (streak : Z) : Z :=
  match n with
  | O => streak
  | S i =>
      match nth_error data i with
      | Some item =>
          if JS.gt (completions item) 0
          then calculateStreak_loop data i (streak + 1)%Z
          else streak
      | None => streak
      end
  end.

Definition calculateStreak (data : list DataPoint) : Z :=
  calculateStreak_loop data (List.length data) 0%Z.

(** The values the component puts on screen that depend on the data: the
    series given to the chart, whether the target line is drawn, and the
    three numbers of the statistics summary (the average before
    [toFixed(1)] formats it). *)
Record View : Type := {
  heading : string;
  chartKind : ChartType;
  chartData : list DataPoint;
  targetLine : bool;
  totalCompletions : option Q;
  dailyAverage : option Q;
  currentStreak : Z
}.

Definition HabitGraph (h : Host) (props : HabitGraphProps) : View :=
  let type := match type props with Some t => t | None => line end in
  let title :=
    match title props with
    | Some t => t
    | None => "Habit Completion Trend"%string
    end in
  let chartData :=
    if Nat.ltb 0 (List.length (data props)) then data props
    else generateSampleData h in
  {| heading := title;
     chartKind := type;
     chartData := chartData;
     targetLine :=
       match type, chartData with
       | line, item :: _ =>
           match target item with Some _ => true | None => false end
       | _, _ => false
       end;
     totalCompletions := calculateTotal chartData;
     dailyAverage := calculateAverage chartData;
     currentStreak := calculateStreak chartData |}.

(** The test [data[i].completions > 0] of the streak loop, named so that
    statements about the loop can refer to it. *)
Definition marker (item : DataPoint) : bool := JS.gt (completions item) 0.

(** The values [Math.floor(Math.random() * 8) + 2] can take. *)
Definition in_sample_range (item : DataPoint) : Prop :=
  2 <= completions item /\ completions item <= 9.

(** The props the dashboard passes: [<HabitGraph data={[]} />]. *)
Definition dashboardProps : HabitGraphProps :=
  {| data := []; type := None; title := None |}.

End HabitGraph.

(** ** Pet.tsx *)

Module Pet.

Local Open Scope Q_scope.
Local Open Scope string_scope.

Record PetProps : Type := {
  level : Q;
  happiness : Q;
  experience : Q
}.

(** The three string literals ['happy'], ['neutral'] and ['sad']. *)
Inductive PetState : Type := happy | neutral | sad.

Definition getPetState (happiness : Q) : PetState :=
  if JS.ge happiness 80 then happy
  else if JS.ge happiness 50 then neutral
  else sad.

Definition xpForNextLevel (level : Q) : Q := level * 100.

(** [(experience / xpForNextLevel) * 100]; there is no finite result when
    the divisor is zero. *)
Definition xpProgress (level experience : Q) : option Q :=
  if Qeq_bool (xpForNextLevel level) 0 then None
  else Some ((experience / xpForNextLevel level) * 100).

(** The parts of the SVG drawn by [renderPet] that vary. *)
Record PetSvg : Type := {
  baseColor : string;
  eyeExpression : string;
  mouthPath : string;
  bounce : bool;
  sparkles : bool
}.

Definition renderPet (state : PetState) : PetSvg :=
  {| baseColor :=
       match state with
       | happy => "#10B981" | neutral => "#F59E0B" | sad => "#EF4444"
       end;
     eyeExpression :=
       match state with
       | happy => "^" | neutral => "â€¢" | sad => "â€¢"
       end;
     mouthPath :=
       match state with
       | happy => "M 40 55 Q 50 65 60 55"
       | neutral => "M 40 60 L 60 60"
       | sad => "M 40 65 Q 50 55 60 65"
       end;
     bounce := match state with happy => true | _ => false end;
     sparkles := match state with happy => true | _ => false end |}.

(** The three guarded fragments of the status paragraph; exactly one guard
    holds for each state. *)
Definition statusMessage (state : PetState) : string :=
  match state with
  | happy => "Your pet is thriving! Keep up the great work! ðŸŽ‰"
  | neutral =>
      "Your pet is doing okay. Complete more habits to boost happiness! ðŸ˜Š"
  | sad =>
      "Your pet needs attention! Complete some habits to cheer them up. ðŸ¥º"
  end.

(** The colour class of the happiness bar, chosen from [happiness]
    directly. *)
Definition happinessBarClass (happiness : Q) : string :=
  if JS.ge happiness 80 then "bg-green-500"
  else if JS.ge happiness 50 then "bg-yellow-500"
  else "bg-red-500".

Record View : Type := {
  state : PetState;
  svg : PetSvg;
  levelLabel : Q;
  xpLabel : Q * Q;
  xpBar : option Q;
  happinessLabel : Q;
  happinessBar : string;
  message : string
}.

Definition Pet (props : PetProps) : View :=
  let state := getPetState (happiness props) in
  {| state := state;
     svg := renderPet state;
     levelLabel := level props;
     xpLabel := (experience props, xpForNextLevel (level props));
     xpBar := xpProgress (level props) (experience props);
     happinessLabel := happiness props;
     happinessBar := happinessBarClass (happiness props);
     message := statusMessage state |}.

End Pet.

(** ** GamificationEngine (engine side; the repository documents it in the
  project summary, the implementation is not part of the front end) *)

Module GamificationEngine.

Local Open Scope Z_scope.

(** Modelled from the spec: the per-user pet record ([pet_level],
    [pet_experience], [pet_happiness] of the user row), whose update
    function lives in the back end. *)
Record PetState : Type := {
  level : Z;
  experience : Z;
  happiness : Z
}.

(** Modelled from the spec: the [clamp(x, lo, hi)] of the happiness update. *)
Definition clamp (x lo hi : Z) : Z := Z.max lo (Z.min x hi).

(** A bound on the number of iterations the level-up loop still has to
    make: above level 0 every iteration removes at least 100 experience;
    at or below level 0 the loop climbs towards level 1. *)
Definition levelUp_fuel (lvl xp : Z) : nat :=
  Z.to_nat (if lvl <=? 0
            then xp + 50 * lvl * (lvl - 1) + (1 - lvl)
            else xp).

(** Modelled from the spec: the loop of [applyCompletion],
    "while experience >= level * 100: subtract level * 100 from experience
    and increment level by 1"; [lvl] and [xp] are the running values of
    [level] and [experience]. *)
Equations? levelUp (lvl xp : Z) : Z * Z
  by wf (levelUp_fuel lvl xp) lt :=
levelUp lvl xp with Z_le_gt_dec (lvl * 100) xp := {
  | left _ => levelUp (lvl + 1) (xp - lvl * 100);
  | right _ => (lvl, xp) }.
Proof.
  unfold levelUp_fuel.
  destruct (Z.leb_spec lvl 0), (Z.leb_spec (lvl + 1) 0); nia.
Qed.

(** Modelled from the spec: [applyCompletion(pet) -> pet'], which adds 10
    experience, runs the level-up loop and raises happiness by 2 inside
    [0, 100]. *)
Definition applyCompletion (pet : PetState) : PetState :=
  let '(level', experience') := levelUp (level pet) (experience pet + 10) in
  {| level := level';
     experience := experience';
     happiness := clamp (happiness pet + 2) 0 100 |}.

(** Modelled from the spec: the same loop read as a relation between the
    values of [(level, experience)] on entry and on exit, one rule for
    leaving the loop and one for an iteration. *)
Inductive levelUp_loop : Z * Z -> Z * Z -> Prop :=
| loop_exit : forall lvl xp,
    xp < lvl * 100 ->
    levelUp_loop (lvl, xp) (lvl, xp)
| loop_iter : forall lvl xp out,
    xp >= lvl * 100 ->
    levelUp_loop (lvl + 1, xp - lvl * 100) out ->
    levelUp_loop (lvl, xp) out.

End GamificationEngine.

(** ** StreakCalculator (engine side; only the [current_streak] and
  [longest_streak] fields it fills are declared in the front end) *)

Module StreakCalculator.

Local Open Scope Z_scope.

(** Modelled from the spec: the frequency rules of a habit. *)
Inductive Frequency : Type := daily | weekly | custom_n_per_week.

(** Modelled from the spec: a completion event; [completed_at] is its
    timestamp and the ordering key. *)
Record HabitEvent : Type := {
  completed_at : Z;
  mood : option Z;
  energy_level : option Z
}.

(** Modelled from the spec: the two readings the design leaves open for a
    period that has not ended yet: it counts as soon as it is satisfied, or
    it never counts. *)
Inductive OpenPeriodPolicy : Type := optimistic | conservative.

(** Modelled from the spec: the result [{current, longest}]. *)
Record Streak : Type := {
  current : Z;
  longest : Z
}.

Section Calendar.

(** The calendar period (day number for a daily habit, ISO week number
    otherwise) that contains a timestamp, in the habit owner's time
    zone. *)
Variable period_of : Frequency -> Z -> Z.

(** Modelled from the spec: the number of completions that fall in
    period [p]. *)
Definition completions_in
    (frequency : Frequency) (events : list HabitEvent) (p : Z) : Z :=
  Z.of_nat
    (List.length
       (filter (fun e => period_of frequency (completed_at e) =? p) events)).

(** Modelled from the spec: a day is satisfied by one completion, a week
    once its completions reach [target_count]. *)
Definition satisfied
    (frequency : Frequency) (target_count : Z)
    (events : list HabitEvent) (p : Z) : bool :=
  match frequency with
  | daily => 1 <=? completions_in frequency events p
  | weekly | custom_n_per_week =>
      target_count <=? completions_in frequency events p
  end.

(** Modelled from the spec: the normalisation of an ordered event history
    to one "completed" marker per calendar period, from the period of
    the first event to the period that contains [now], oldest first. *)
Definition normalize
    (events : list HabitEvent) (frequency : Frequency)
    (target_count now : Z) : list bool :=
  match events with
  | [] => []
  | first :: _ =>
      let lo := period_of frequency (completed_at first) in
      let hi := period_of frequency now in
      map (fun i => satisfied frequency target_count events (lo + Z.of_nat i))
          (seq 0 (Z.to_nat (hi - lo + 1)))
  end.

(** Modelled from the spec: [computeStreak(events, frequency, now)] of
    the back end.  The current streak walks the periods backward from
    the one containing [now], leaving that period out when it is open
    and not satisfied; the longest streak is one forward pass over all
    periods. *)
Definition computeStreak
    (events : list HabitEvent) (frequency : Frequency)
    (target_count now : Z) (policy : OpenPeriodPolicy) : Streak :=
  let markers := normalize events frequency target_count now in
  let elapsed := removelast markers in
  match policy with
  | optimistic =>
      {| current :=
           Runs.leading (rev (if last markers false then markers else elapsed));
         longest := Runs.longest markers |}
  | conservative =>
      {| current := Runs.leading (rev elapsed);
         longest := Runs.longest elapsed |}
  end.

End Calendar.

End StreakCalculator.

(** ** RiskPredictor (engine side; the front end declares only the shape of
  its answer, [PredictionResponse] in api.ts) *)

Module RiskPredictor.

Local Open Scope Q_scope.
Local Open Scope string_scope.

(** The answer of [POST /predict], as api.ts declares it. *)
Record PredictionResponse : Type := {
  risk_score : Q;
  success_probability : Q;
  feature_importance : list (string * Q);
  recommendation : string
}.

(** Modelled from the spec: a fitted model with its schema version tag,
    the probability of the positive class it assigns to a feature vector,
    and its features ranked by gain. *)
Record Model : Type := {
  version : nat;
  probability : list Q -> Q;
  ranking : list (string * Q)
}.

(** Modelled from the spec: what the predictor finds where the artifact
    should be. *)
Inductive Artifact : Type :=
| absent
| unreadable
| parsed (m : Model).

(** Modelled from the spec: the "model not ready" failure and its causes. *)
Inductive NotReadyReason : Type :=
| artifact_missing
| artifact_unreadable
| version_incompatible.

Inductive PredictError : Type :=
| model_not_ready (why : NotReadyReason).

(** Modelled from the spec: the predictor service, which owns the artifact
    and knows the schema version it can read. *)
Record Predictor : Type := {
  supported_version : nat;
  artifact : Artifact
}.

(** Modelled from the spec: the defensive clamp of the risk score. *)
Definition clamp (x lo hi : Q) : Q := Qmax lo (Qmin x hi).

(** Modelled from the spec: the ordered rule table; the first row whose threshold the risk score
    reaches gives the recommendation. *)
Definition rule_table : list (Q * string) :=
  [ (7 # 10, "high risk"); (4 # 10, "moderate risk") ].

(** Modelled from the spec: the recommendation chosen for a risk score. *)
Definition recommend (risk : Q) : string :=
  match find (fun rule => JS.ge risk (fst rule)) rule_table with
  | Some rule => snd rule
  | None => "on track"
  end.

(** Modelled from the spec: loading the artifact, which the back end's
    predictor does once; an absent file, a file that does not parse and a
    version tag other than the supported one are rejected. *)
Definition load (p : Predictor) : PredictError + Model :=
  match artifact p with
  | absent => inl (model_not_ready artifact_missing)
  | unreadable => inl (model_not_ready artifact_unreadable)
  | parsed m =>
      if Nat.eqb (version m) (supported_version p) then inr m
      else inl (model_not_ready version_incompatible)
  end.

(** Modelled from the spec: [predict(features) -> PredictionResult] of the
    back end's predictor. *)
Definition predict
    (p : Predictor) (features : list Q) : PredictError + PredictionResponse :=
  match load p with
  | inl e => inl e
  | inr m =>
      let risk := clamp (probability m features) 0 1 in
      inr {| risk_score := risk;
             success_probability := 1 - risk;
             feature_importance := firstn 5 (ranking m);
             recommendation := recommend risk |}
  end.

End RiskPredictor.

(** ** JavaScript values that may be missing, and template strings *)

Module JSValue.

Local Open Scope string_scope.

(** Truthiness of a value of type [string | null | undefined]: a missing
    value and the empty string are falsy. *)
Definition truthy (v : option string) : bool :=
  match v with
  | Some s => negb (String.eqb s "")
  | None => false
  end.

(** [v || fallback] for such a value. *)
Definition or_else (v : option string) (fallback : string) : string :=
  match v with
  | Some s => if String.eqb s "" then fallback else s
  | None => fallback
  end.

(** [x <= y] on finite numbers. *)
Definition le (x y : Q) : bool := Qle_bool x y.

(** An integer inside a template string. *)
Definition show (n : Z) : string := NilZero.string_of_int (Z.to_int n).

End JSValue.

(** ** Asynchronous code as a tree of effects

    An [await], a state setter or a call into the browser is a node that
    names the effect and continues with its answer. *)

Module Async.

Inductive Prog (E : Type -> Type) (A : Type) : Type :=
| Ret (a : A)
| Vis (X : Type) (e : E X) (k : X -> Prog E A).

Arguments Ret {E A} a.
Arguments Vis {E A X} e k.

Fixpoint bind {E : Type -> Type} {A B : Type}
    (p : Prog E A) (f : A -> Prog E B) : Prog E B :=
  match p with
  | Ret a => f a
  | Vis e k => Vis e (fun x => bind (k x) f)
  end.

(** Performing one effect. *)
Definition trigger {E : Type -> Type} {X : Type} (e : E X) : Prog E X :=
  Vis e (fun x => Ret x).

End Async.

(** ** services/api.ts *)

Module Api.

Local Open Scope string_scope.

Module User.
Record User : Type := {
  id : Z;
  email : string;
  full_name : option string;
  is_active : bool;
  is_premium : bool;
  pet_level : Q;
  pet_experience : Q;
  pet_happiness : Q;
  created_at : string
}.
End User.

Module Habit.
Record Habit : Type := {
  id : Z;
  user_id : Z;
  title : string;
  description : option string;
  category : option string;
  frequency : string;
  target_count : Q;
  color : string;
  icon : string;
  is_active : bool;
  current_streak : Q;
  longest_streak : Q;
  difficulty_rating : Q;
  importance_rating : Q;
  created_at : string;
  updated_at : option string
}.
End Habit.

Module HabitEvent.
Record HabitEvent : Type := {
  id : Z;
  habit_id : Z;
  completed_at : string;
  notes : option string;
  mood : option Q;
  energy_level : option Q;
  time_of_day : option string;
  day_of_week : option Q
}.
End HabitEvent.

(** [Partial<HabitEvent>]: every field may be left out. *)
Module PartialHabitEvent.
Record PartialHabitEvent : Type := {
  id : option Z;
  habit_id : option Z;
  completed_at : option string;
  notes : option string;
  mood : option Q;
  energy_level : option Q;
  time_of_day : option string;
  day_of_week : option Q
}.
End PartialHabitEvent.

Module HabitStats.
Record HabitStats : Type := {
  total_habits : Q;
  active_habits : Q;
  total_completions : Q;
  average_streak : Q;
  completion_rate : Q
}.
End HabitStats.

Module DashboardData.
Record DashboardData : Type := {
  user : User.User;
  habits : list Habit.Habit;
  stats : HabitStats.HabitStats;
  recent_events : list HabitEvent.HabitEvent
}.
End DashboardData.

(** *** The browser state the module touches *)

(** A string-keyed store ([localStorage], request headers): the first
    binding of a key is the one in force. *)
Definition Store : Type := list (string * string).

Fixpoint getItem (key : string) (store : Store) : option string :=
  match store with
  | [] => None
  | (k, v) :: rest => if String.eqb k key then Some v else getItem key rest
  end.

Definition removeItem (key : string) (store : Store) : Store :=
  filter (fun kv => negb (String.eqb (fst kv) key)) store.

(** Assignment to a key. *)
Definition setItem (key value : string) (store : Store) : Store :=
  (key, value) :: removeItem key store.

Record Browser : Type := {
  localStorage : Store;
  href : string
}.

(** *** Requests and errors *)

Inductive Method : Type := GET | POST | DELETE.

Inductive Body : Type :=
| no_body
| event_body (data : PartialHabitEvent.PartialHabitEvent).

Record Request : Type := {
  method : Method;
  url : string;
  headers : Store;
  body : Body
}.

(** What the handlers read from a rejected call: [error.response?.status]
    and [err.response?.data?.detail]. *)
Record AxiosError : Type := {
  status : option Z;
  detail : option string
}.

(** The settled promise of a call. *)
Inductive Outcome (X : Type) : Type :=
| resolved (x : X)
| rejected (err : AxiosError).

Arguments resolved {X} x.
Arguments rejected {X} err.

(** The calls of [habitAPI] and [dashboardAPI] that take no body or an
    event body, indexed by the type of [response.data].  The page keeps the
    body of the dashboard call without checking it, so that body may also
    be [null] ([None]). *)
Inductive Endpoint : Type -> Type :=
| getHabits : Endpoint (list Habit.Habit)
| getHabit (id : Z) : Endpoint Habit.Habit
| deleteHabit (id : Z) : Endpoint unit
| getHabitEvents (habitId : Z) : Endpoint (list HabitEvent.HabitEvent)
| createHabitEvent (habitId : Z) (data : PartialHabitEvent.PartialHabitEvent) :
    Endpoint HabitEvent.HabitEvent
| getDashboard : Endpoint (option DashboardData.DashboardData).

(** The headers of the axios instance. *)
Definition defaultHeaders : Store := [ ("Content-Type", "application/json") ].

(** The request each call hands to the axios instance (relative to
    [baseURL]). *)
Definition config_of {X : Type} (e : Endpoint X) : Request :=
  match e with
  | getHabits =>
      {| method := GET; url := "/habits";
         headers := defaultHeaders; body := no_body |}
  | getHabit id =>
      {| method := GET; url := "/habits/" ++ JSValue.show id;
         headers := defaultHeaders; body := no_body |}
  | deleteHabit id =>
      {| method := DELETE; url := "/habits/" ++ JSValue.show id;
         headers := defaultHeaders; body := no_body |}
  | getHabitEvents habitId =>
      {| method := GET; url := "/habits/" ++ JSValue.show habitId ++ "/events";
         headers := defaultHeaders; body := no_body |}
  | createHabitEvent habitId data =>
      {| method := POST; url := "/habits/" ++ JSValue.show habitId ++ "/events";
         headers := defaultHeaders; body := event_body data |}
  | getDashboard =>
      {| method := GET; url := "/dashboard";
         headers := defaultHeaders; body := no_body |}
  end.

(** The request interceptor: with a token in [localStorage], the request
    gets an [Authorization] header. *)
Definition request_interceptor (b : Browser) (config : Request) : Request :=
  match getItem "token" (localStorage b) with
  | Some token =>
      if JSValue.truthy (Some token)
      then {| method := method config;
              url := url config;
              headers :=
                setItem "Authorization" ("Bearer " ++ token) (headers config);
              body := body config |}
      else config
  | None => config
  end.

(** What the response interceptor does to the browser when a call fails;
    the error itself is passed on ([Promise.reject(error)]). *)
Definition response_interceptor (err : AxiosError) (b : Browser) : Browser :=
  match status err with
  | Some code =>
      if Z.eqb code 401
      then {| localStorage := removeItem "token" (localStorage b);
              href := "/login" |}
      else b
  | None => b
  end.

(** One call through the axios instance: the request as sent, the outcome
    the caller sees and the browser afterwards; [answer] is what the network
    replies to the request sent. *)
Definition send {X : Type}
    (answer : Request -> Outcome X) (b : Browser) (config : Request)
    : Request * Outcome X * Browser :=
  let sent := request_interceptor b config in
  match answer sent with
  | resolved x => (sent, resolved x, b)
  | rejected err => (sent, rejected err, response_interceptor err b)
  end.

End Api.

(** ** components/HabitCard.tsx *)

Module HabitCard.

Local Open Scope Q_scope.
Local Open Scope string_scope.

(** The props; [H] is what a handler does when it is called. *)
Record HabitCardProps (H : Type) : Type := {
  habit : Api.Habit.Habit;
  onComplete : Z -> H;
  onEdit : option (Api.Habit.Habit -> H);
  onDelete : option (Z -> H)
}.

(** The five segments [[1, 2, 3, 4, 5].map((level) => level <= rating)];
    [true] is a coloured segment. *)
Definition ratingBar (rating : Q) : list bool :=
  map (fun level => JSValue.le level rating) [1; 2; 3; 4; 5].

(** [{text && <p>{text}</p>}]: the paragraph is there when the text is
    truthy. *)
Definition shown (text : option string) : option string :=
  if JSValue.truthy text then text else None.

Record View : Type := {
  borderLeft : string;
  icon : string;
  title : string;
  description : option string;
  editButton : bool;
  deleteButton : bool;
  currentStreak : Q;
  bestStreak : Q;
  difficulty : list bool;
  importance : list bool;
  completeDisabled : bool;
  categoryBadge : option string
}.

Definition HabitCard {H : Type} (props : HabitCardProps H) : View :=
  let habit := habit props in
  {| borderLeft := "4px solid " ++ Api.Habit.color habit;
     icon := Api.Habit.icon habit;
     title := Api.Habit.title habit;
     description := shown (Api.Habit.description habit);
     editButton := match onEdit props with Some _ => true | None => false end;
     deleteButton :=
       match onDelete props with Some _ => true | None => false end;
     currentStreak := Api.Habit.current_streak habit;
     bestStreak := Api.Habit.longest_streak habit;
     difficulty := ratingBar (Api.Habit.difficulty_rating habit);
     importance := ratingBar (Api.Habit.importance_rating habit);
     completeDisabled := negb (Api.Habit.is_active habit);
     categoryBadge := shown (Api.Habit.category habit) |}.

End HabitCard.

(** ** pages/Dashboard.tsx *)

Module Dashboard.

Import Async.
Local Open Scope string_scope.

(** The three [useState] cells. *)
Record State : Type := {
  dashboardData : option Api.DashboardData.DashboardData;
  loading : bool;
  error : option string
}.

Definition initialState : State :=
  {| dashboardData := None; loading := true; error := None |}.

(** What the page's handlers do besides computing. *)
Inductive Effect : Type -> Type :=
| call (X : Type) (e : Api.Endpoint X) : Effect (Api.Outcome X)
| setDashboardData (data : option Api.DashboardData.DashboardData) :
    Effect unit
| setLoading (value : bool) : Effect unit
| setError (value : option string) : Effect unit
| console_error (label : string) (err : Api.AxiosError) : Effect unit
| alert (message : string) : Effect unit
| confirm (message : string) : Effect bool
| localStorage_removeItem (key : string) : Effect unit
| location_href (target : string) : Effect unit.

Arguments call {X} e.

Definition Handler : Type := Prog Effect unit.

Local Notation "x <- p ;; q" := (bind p (fun x => q))
  (at level 61, p at next level, right associativity).
Local Notation "p ;; q" := (bind p (fun _ => q))
  (at level 61, right associativity).

(** [try { setLoading(true); data = await getDashboard(); ... }
     catch (err) { setError(detail || 'Failed to load dashboard'); ... }
     finally { setLoading(false) }] *)
Definition loadDashboard : Handler :=
  trigger (setLoading true) ;;
  outcome <- trigger (call Api.getDashboard) ;;
  match outcome with
  | Api.resolved data =>
      trigger (setDashboardData data) ;;
      trigger (setError None)
  | Api.rejected err =>
      trigger (setError
                 (Some (JSValue.or_else (Api.detail err)
                                        "Failed to load dashboard"))) ;;
      trigger (console_error "Dashboard error:" err)
  end ;;
  trigger (setLoading false).

(** The event that "Complete" logs: [{ mood: 4, energy_level: 4 }]. *)
Definition completionEvent : Api.PartialHabitEvent.PartialHabitEvent :=
  {| Api.PartialHabitEvent.id := None;
     Api.PartialHabitEvent.habit_id := None;
     Api.PartialHabitEvent.completed_at := None;
     Api.PartialHabitEvent.notes := None;
     Api.PartialHabitEvent.mood := Some 4%Q;
     Api.PartialHabitEvent.energy_level := Some 4%Q;
     Api.PartialHabitEvent.time_of_day := None;
     Api.PartialHabitEvent.day_of_week := None |}.

Definition handleCompleteHabit (habitId : Z) : Handler :=
  outcome <- trigger (call (Api.createHabitEvent habitId completionEvent)) ;;
  match outcome with
  | Api.resolved _ =>
      loadDashboard ;;
      trigger (alert "Habit completed! 🎉")
  | Api.rejected err =>
      trigger (alert (JSValue.or_else (Api.detail err)
                                      "Failed to complete habit"))
  end.

Definition handleDeleteHabit (habitId : Z) : Handler :=
  confirmed <- trigger (confirm "Are you sure you want to delete this habit?") ;;
  if negb confirmed then Ret tt
  else
    outcome <- trigger (call (Api.deleteHabit habitId)) ;;
    match outcome with
    | Api.resolved _ => loadDashboard
    | Api.rejected err =>
        trigger (alert (JSValue.or_else (Api.detail err)
                                        "Failed to delete habit"))
    end.

(** The [onClick] of the logout button. *)
Definition logout : Handler :=
  trigger (localStorage_removeItem "token") ;;
  trigger (location_href "/login").

(** *** Running a handler *)

(** Everything a handler can change or leave a mark on. *)
Record World : Type := {
  state : State;
  browser : Api.Browser;
  sent : list Api.Request;
  failures : list Api.AxiosError;
  alerts : list string;
  console : list string
}.

(** What the page does not decide: the replies of the network, which may
    depend on the requests sent before, and the user's answers to
    [confirm]. *)
Record Env : Type := {
  network : forall X : Type,
      list Api.Request -> Api.Endpoint X -> Api.Request -> Api.Outcome X;
  answers : list Api.Request -> string -> bool
}.

Definition with_state (w : World) (st : State) : World :=
  {| state := st; browser := browser w; sent := sent w;
     failures := failures w; alerts := alerts w; console := console w |}.

Definition with_browser (w : World) (b : Api.Browser) : World :=
  {| state := state w; browser := b; sent := sent w;
     failures := failures w; alerts := alerts w; console := console w |}.

Definition failure_of {X : Type} (outcome : Api.Outcome X)
    : list Api.AxiosError :=
  match outcome with
  | Api.resolved _ => []
  | Api.rejected err => [err]
  end.

Definition perform (env : Env) (X : Type) (e : Effect X) (w : World)
    : X * World :=
  match e in Effect T return T * World with
  | call ep =>
      let '(request, outcome, b) :=
        Api.send (network env (sent w) ep) (browser w) (Api.config_of ep) in
      (outcome,
       {| state := state w; browser := b; sent := sent w ++ [request];
          failures := failures w ++ failure_of outcome;
          alerts := alerts w; console := console w |})
  | setDashboardData data =>
      (tt, with_state w {| dashboardData := data;
                           loading := loading (state w);
                           error := error (state w) |})
  | setLoading value =>
      (tt, with_state w {| dashboardData := dashboardData (state w);
                           loading := value;
                           error := error (state w) |})
  | setError value =>
      (tt, with_state w {| dashboardData := dashboardData (state w);
                           loading := loading (state w);
                           error := value |})
  | console_error label _ =>
      (tt, {| state := state w; browser := browser w; sent := sent w;
              failures := failures w; alerts := alerts w;
              console := console w ++ [label] |})
  | alert message =>
      (tt, {| state := state w; browser := browser w; sent := sent w;
              failures := failures w; alerts := alerts w ++ [message];
              console := console w |})
  | confirm message => (answers env (sent w) message, w)
  | localStorage_removeItem key =>
      (tt, with_browser w
             {| Api.localStorage :=
                  Api.removeItem key (Api.localStorage (browser w));
                Api.href := Api.href (browser w) |})
  | location_href target =>
      (tt, with_browser w
             {| Api.localStorage := Api.localStorage (browser w);
                Api.href := target |})
  end.

Fixpoint run {A : Type} (env : Env) (p : Prog Effect A) (w : World)
    : A * World :=
  match p with
  | Ret a => (a, w)
  | Vis e k => let '(x, w') := perform env e w in run env (k x) w'
  end.

(** The world after a handler has run. *)
Definition after (env : Env) (handler : Handler) (w : World) : World :=
  snd (run env handler w).

(** *** What the page renders *)

Record MainView : Type := {
  welcome : string;
  stats : Api.HabitStats.HabitStats;
  graph : HabitGraph.View;
  cards : list HabitCard.View;
  emptyState : bool;
  pet : Pet.View;
  accountType : string
}.

Inductive Screen : Type :=
| loading_screen
| error_screen (message : string)
| nothing
| main_screen (view : MainView).

(** The props each card gets from the page. *)
Definition cardProps (habit : Api.Habit.Habit)
    : HabitCard.HabitCardProps Handler :=
  {| HabitCard.habit := habit;
     HabitCard.onComplete := handleCompleteHabit;
     HabitCard.onEdit := None;
     HabitCard.onDelete := Some handleDeleteHabit |}.

(** The page once it is neither loading nor in error. *)
Definition content (host : HabitGraph.Host) (st : State) : Screen :=
  match dashboardData st with
  | None => nothing
  | Some data =>
      let user := Api.DashboardData.user data in
      let habits := Api.DashboardData.habits data in
      main_screen
        {| welcome :=
             "Welcome back, " ++
             JSValue.or_else (Api.User.full_name user) (Api.User.email user)
             ++ "!";
           stats := Api.DashboardData.stats data;
           graph := HabitGraph.HabitGraph host HabitGraph.dashboardProps;
           cards :=
             map (fun habit => HabitCard.HabitCard (cardProps habit)) habits;
           emptyState := Nat.eqb (List.length habits) 0;
           pet :=
             Pet.Pet {| Pet.level := Api.User.pet_level user;
                        Pet.happiness := Api.User.pet_happiness user;
                        Pet.experience := Api.User.pet_experience user |};
           accountType :=
             if Api.User.is_premium user then "⭐ Premium" else "Free" |}
  end.

(** [if (loading) ...; if (error) ...; if (!dashboardData) return null; ...] *)
Definition Dashboard (host : HabitGraph.Host) (st : State) : Screen :=
  if loading st then loading_screen
  else
    match error st with
    | Some message =>
        if JSValue.truthy (Some message) then error_screen message
        else content host st
    | None => content host st
    end.

(** *** Notions used to state what handlers never do *)

(** The session is over: no token is stored and the browser is at the login
    page. *)
Definition expired (b : Api.Browser) : Prop :=
  Api.getItem "token" (Api.localStorage b) = None /\ Api.href b = "/login".

(** The effect assigns [window.location.href]. *)
Definition navigates {X : Type} (e : Effect X) : bool :=
  match e with
  | location_href _ => true
  | _ => false
  end.

(** A program that never assigns [window.location.href] itself. *)
Inductive stays {A : Type} : Prog Effect A -> Prop :=
| stays_ret : forall a : A, stays (Ret a)
| stays_vis : forall (X : Type) (e : Effect X) (k : X -> Prog Effect A),
    navigates e = false ->
    (forall x : X, stays (k x)) ->
    stays (Vis e k).

(** The error of a failed call was a 401. *)
Definition unauthorized (err : Api.AxiosError) : Prop :=
  Api.status err = Some 401%Z.

End Dashboard.

(** ** App.tsx *)

Module App.

Local Open Scope string_scope.

(** The three [Route]s: [/login], [/] and the catch-all. *)
Inductive RouteMatch : Type := login_route | root_route | other_route.

Inductive Element : Type :=
| spinner
| Navigate (to : string)
| Login
| DashboardPage.

(** The effect run on mount: [setIsAuthenticated(!!token)]. *)
Definition checkAuth (b : Api.Browser) : bool :=
  JSValue.truthy (Api.getItem "token" (Api.localStorage b)).

(** What the component renders for the state [isAuthenticated] and the
    route that matches the location. *)
Definition App (isAuthenticated : option bool) (route : RouteMatch) : Element :=
  match isAuthenticated with
  | None => spinner
  | Some authenticated =>
      match route with
      | login_route => if authenticated then Navigate "/" else Login
      | root_route => if authenticated then DashboardPage else Navigate "/login"
      | other_route => Navigate "/"
      end
  end.

Section Router.

(** The route the router picks for a path. *)
Variable matchRoute : string -> RouteMatch.

(** Rendering and following [Navigate] elements, at most [redirects]
    times. *)
Fixpoint settle (redirects : nat) (authenticated : bool) (path : string)
    : option Element :=
  match App (Some authenticated) (matchRoute path) with
  | Navigate to =>
      match redirects with
      | O => None
      | S fewer => settle fewer authenticated to
      end
  | element => Some element
  end.

End Router.

(** A router that matches paths literally. *)
Definition literalRoutes (path : string) : RouteMatch :=
  if String.eqb path "/login" then login_route
  else if String.eqb path "/" then root_route
  else other_route.

End App.

(** ** Whole-number counts *)

Module Counts.

Local Open Scope Q_scope.

(** The entry's completions are a whole number, zero or more. *)
Definition whole (item : HabitGraph.DataPoint) : Prop :=
  0 <= HabitGraph.completions item /\
  HabitGraph.completions item ==
  inject_Z (Qfloor (HabitGraph.completions item)).

(** The sum of the completions of whole-number entries, as an integer. *)
Definition exactTotal (data : list HabitGraph.DataPoint) : Z :=
  fold_right Z.add 0%Z
             (map (fun item => Qfloor (HabitGraph.completions item)) data).

End Counts.

(** ** An order on the pet's states *)

Module PetOrder.

(** Sad below neutral below happy. *)
Definition rank (s : Pet.PetState) : nat :=
  match s with
  | Pet.sad => 0
  | Pet.neutral => 1
  | Pet.happy => 2
  end.

End PetOrder.

(** ** Concrete inputs used to exercise the statements below *)

Module Samples.

Local Open Scope Q_scope.

(** An entry of the chart data with the given number of completions. *)
Definition day (c : Q) : HabitGraph.DataPoint :=
  {| HabitGraph.date := ""; HabitGraph.completions := c;
     HabitGraph.target := None |}.

(** A host whose random source always answers 0. *)
Definition host_low : HabitGraph.Host :=
  {| HabitGraph.today := 0;
     HabitGraph.random := fun _ => 0;
     HabitGraph.toLocaleDateString := fun _ => EmptyString |}.

(** A host whose random source alternates between 3/4 and 1/8, on another
    day. *)
Definition host_alternating : HabitGraph.Host :=
  {| HabitGraph.today := 19000;
     HabitGraph.random := fun k => if Nat.even k then 3 # 4 else 1 # 8;
     HabitGraph.toLocaleDateString := fun _ => EmptyString |}.

(** A calendar in UTC: days of 86400 seconds counted from the epoch, ISO
    weeks starting on Monday (day 0 of the epoch is a Thursday). *)
Definition utc (frequency : StreakCalculator.Frequency) (t : Z) : Z :=
  match frequency with
  | StreakCalculator.daily => (t / 86400)%Z
  | _ => ((t / 86400 + 3) / 7)%Z
  end.

(** A completion at noon of the given day. *)
Definition noon (d : Z) : StreakCalculator.HabitEvent :=
  {| StreakCalculator.completed_at := (d * 86400 + 43200)%Z;
     StreakCalculator.mood := None;
     StreakCalculator.energy_level := None |}.

(** The props of the component tests in Pet.test.tsx. *)
Definition pet_high : Pet.PetProps :=
  {| Pet.level := 5; Pet.happiness := 85; Pet.experience := 250 |}.

Definition pet_medium : Pet.PetProps :=
  {| Pet.level := 3; Pet.happiness := 60; Pet.experience := 150 |}.

Definition pet_low : Pet.PetProps :=
  {| Pet.level := 2; Pet.happiness := 30; Pet.experience := 50 |}.

(** A second pet in the happy state. *)
Definition pet_content : Pet.PetProps :=
  {| Pet.level := 1; Pet.happiness := 80; Pet.experience := 0 |}.

(** A model of schema version 1 whose raw output is the first feature, or
    3/2 (outside the unit interval) for an empty vector. *)
Definition model_v1 : RiskPredictor.Model :=
  {| RiskPredictor.version := 1;
     RiskPredictor.probability :=
       fun features =>
         match features with
         | x :: _ => x
         | [] => 3 # 2
         end;
     RiskPredictor.ranking := [ ("current_streak"%string, 1) ] |}.

Definition predictor_ready : RiskPredictor.Predictor :=
  {| RiskPredictor.supported_version := 1;
     RiskPredictor.artifact := RiskPredictor.parsed model_v1 |}.

Definition predictor_missing : RiskPredictor.Predictor :=
  {| RiskPredictor.supported_version := 1;
     RiskPredictor.artifact := RiskPredictor.absent |}.

Definition predictor_corrupt : RiskPredictor.Predictor :=
  {| RiskPredictor.supported_version := 1;
     RiskPredictor.artifact := RiskPredictor.unreadable |}.

Definition predictor_stale : RiskPredictor.Predictor :=
  {| RiskPredictor.supported_version := 2;
     RiskPredictor.artifact := RiskPredictor.parsed model_v1 |}.

(** A user, a habit and the dashboard built from them. *)
Definition user_ada : Api.User.User :=
  {| Api.User.id := 1; Api.User.email := "ada@example.com";
     Api.User.full_name := Some ""%string;
     Api.User.is_active := true; Api.User.is_premium := false;
     Api.User.pet_level := 5; Api.User.pet_experience := 250;
     Api.User.pet_happiness := 85;
     Api.User.created_at := "2024-01-01T00:00:00Z" |}.

Definition habit_run : Api.Habit.Habit :=
  {| Api.Habit.id := 42; Api.Habit.user_id := 1;
     Api.Habit.title := "Run"; Api.Habit.description := None;
     Api.Habit.category := Some "health"%string;
     Api.Habit.frequency := "daily"; Api.Habit.target_count := 1;
     Api.Habit.color := "#3B82F6"; Api.Habit.icon := "R";
     Api.Habit.is_active := true;
     Api.Habit.current_streak := 3; Api.Habit.longest_streak := 7;
     Api.Habit.difficulty_rating := 3; Api.Habit.importance_rating := 7 # 2;
     Api.Habit.created_at := "2024-01-02T00:00:00Z";
     Api.Habit.updated_at := None |}.

Definition dashboard_ada : Api.DashboardData.DashboardData :=
  {| Api.DashboardData.user := user_ada;
     Api.DashboardData.habits := [habit_run];
     Api.DashboardData.stats :=
       {| Api.HabitStats.total_habits := 1;
          Api.HabitStats.active_habits := 1;
          Api.HabitStats.total_completions := 10;
          Api.HabitStats.average_streak := 3;
          Api.HabitStats.completion_rate := 50 |};
     Api.DashboardData.recent_events := [] |}.

Definition event_logged : Api.HabitEvent.HabitEvent :=
  {| Api.HabitEvent.id := 7; Api.HabitEvent.habit_id := 42;
     Api.HabitEvent.completed_at := "2024-01-03T08:00:00Z";
     Api.HabitEvent.notes := None;
     Api.HabitEvent.mood := Some 4; Api.HabitEvent.energy_level := Some 4;
     Api.HabitEvent.time_of_day := None; Api.HabitEvent.day_of_week := None |}.

(** Errors: an expired session, a server error with a message, a network
    failure without a response. *)
Definition error_401 : Api.AxiosError :=
  {| Api.status := Some 401%Z;
     Api.detail := Some "Could not validate credentials"%string |}.

Definition error_500 : Api.AxiosError :=
  {| Api.status := Some 500%Z; Api.detail := Some ""%string |}.

Definition error_offline : Api.AxiosError :=
  {| Api.status := None; Api.detail := None |}.

(** A network on which every call fails with the given error. *)
Definition failing (err : Api.AxiosError) : Dashboard.Env :=
  {| Dashboard.network := fun X _ _ _ => Api.rejected err;
     Dashboard.answers := fun _ _ => true |}.

(** A network that accepts events and deletions, lists nothing, and fails
    the dashboard once a request has been sent before; the user declines
    every confirmation. *)
Definition flaky : Dashboard.Env :=
  {| Dashboard.network :=
       fun X history e =>
         match e in Api.Endpoint T return Api.Request -> Api.Outcome T with
         | Api.getHabits => fun _ => Api.resolved []
         | Api.getHabit _ => fun _ => Api.resolved habit_run
         | Api.deleteHabit _ => fun _ => Api.resolved tt
         | Api.getHabitEvents _ => fun _ => Api.resolved []
         | Api.createHabitEvent _ _ => fun _ => Api.resolved event_logged
         | Api.getDashboard =>
             fun _ =>
               match history with
               | [] => Api.resolved (Some dashboard_ada)
               | _ :: _ => Api.rejected error_500
               end
         end;
     Dashboard.answers := fun _ _ => false |}.

(** A browser with a session token, on the dashboard. *)
Definition browser_in : Api.Browser :=
  {| Api.localStorage :=
       [ ("theme", "dark"); ("token", "abc.def.ghi") ]%string;
     Api.href := "/" |}.

(** A browser without a token. *)
Definition browser_out : Api.Browser :=
  {| Api.localStorage := [ ("theme", "dark") ]%string; Api.href := "/" |}.

(** The page just mounted, in each browser. *)
Definition world_in : Dashboard.World :=
  {| Dashboard.state := Dashboard.initialState;
     Dashboard.browser := browser_in;
     Dashboard.sent := []; Dashboard.failures := [];
     Dashboard.alerts := []; Dashboard.console := [] |}.

Definition world_out : Dashboard.World :=
  {| Dashboard.state := Dashboard.initialState;
     Dashboard.browser := browser_out;
     Dashboard.sent := []; Dashboard.failures := [];
     Dashboard.alerts := []; Dashboard.console := [] |}.

End Samples.

(** * Properties of runs *)

Module RunsFacts.

Import Runs.
Local Open Scope Z_scope.

Lemma leading_nonneg (markers : list bool) : 0 <= Runs.leading markers.
Proof.
  induction markers as [| [|] older IH]; cbn [Runs.leading]; lia.
Qed.

(** After the forward pass has read [markers], the running length is the
    backward walk from the last period read, and the best length is no
    smaller. *)
Lemma longest_state (markers : list bool) :
  fst (fold_left pass_step markers (0, 0)) = Runs.leading (rev markers) /\
  fst (fold_left pass_step markers (0, 0)) <=
  snd (fold_left pass_step markers (0, 0)).
Proof.
  induction markers as [| b markers [IHrun IHbest]] using rev_ind.
  - split; [reflexivity | cbn; lia].
  - rewrite fold_left_app, rev_app_distr. cbn [fold_left rev app].
    destruct (fold_left pass_step markers (0, 0)) as [run best].
    cbn [fst snd] in IHrun, IHbest.
    pose proof (leading_nonneg (rev markers)).
    destruct b; cbn [pass_step Runs.leading fst snd]; split; lia.
Qed.

Lemma leading_le_longest (markers : list bool) :
  Runs.leading (rev markers) <= Runs.longest markers.
Proof.
  unfold Runs.longest.
  destruct (longest_state markers) as [<- H]. exact H.
Qed.

(** Reading one more period never lowers the best length. *)
Lemma longest_removelast (markers : list bool) :
  Runs.longest (removelast markers) <= Runs.longest markers.
Proof.
  destruct markers as [| b markers] using rev_ind; [cbn; lia |].
  rewrite removelast_last. unfold Runs.longest.
  rewrite fold_left_app. cbn [fold_left].
  destruct (fold_left pass_step markers (0, 0)) as [run best].
  destruct b; cbn [pass_step snd]; lia.
Qed.

Lemma leading_run (run rest : list bool) :
  Forall (fun b => b = true) run ->
  Runs.leading (run ++ rest) =
  (Z.of_nat (List.length run) + Runs.leading rest).
Proof.
  induction 1 as [| b run Hb _ IH].
  - reflexivity.
  - subst b. cbn [app Runs.leading List.length].
    rewrite IH. lia.
Qed.

End RunsFacts.

(** * Properties of binary64 rounding *)

Module Binary64Facts.
Import Binary64.
Local Open Scope Q_scope.

Lemma Qred_inject_Z (n : Z) : Qred (inject_Z n) = inject_Z n.
Proof.
  unfold Qred, inject_Z.
  pose proof (Z.ggcd_gcd n 1) as Hg.
  pose proof (Z.ggcd_correct_divisors n 1) as Hd.
  destruct (Z.ggcd n 1) as (g, (aa, bb)). cbn [fst snd] in *.
  rewrite Z.gcd_1_r in Hg. subst g. destruct Hd as [Ha Hb].
  rewrite Z.mul_1_l in Ha, Hb. now subst aa bb.
Qed.

Lemma round_comp (x y : Q) : x == y -> round x = round y.
Proof. intro H. unfold round. now rewrite (Qred_complete _ _ H). Qed.

Lemma nearest_even_comp (x y : Q) : x == y -> nearest_even x = nearest_even y.
Proof.
  intro H. unfold nearest_even. rewrite (Qfloor_comp _ _ H).
  now rewrite (Qcompare_comp _ _ (Qminus_comp _ _ H _ _ (Qeq_refl _))
                             _ _ (Qeq_refl (1 # 2))).
Qed.

Lemma nearest_even_inject_Z (k : Z) : nearest_even (inject_Z k) = k.
Proof.
  unfold nearest_even. rewrite Qfloor_Z.
  assert (H : inject_Z k - inject_Z k == 0) by ring.
  now rewrite (Qcompare_comp _ _ H _ _ (Qeq_refl (1 # 2))).
Qed.

Lemma pow2_pos_exp (s : Z) : (0 <= s)%Z -> pow2 (- s) == / inject_Z (2 ^ s).
Proof.
  intro Hs. unfold pow2. destruct (Z.leb_spec 0 (- s)).
  - assert (s = 0%Z) by lia. subst s. reflexivity.
  - now rewrite Z.opp_involutive.
Qed.

Lemma inject_Z_pow2_nonzero (s : Z) : (0 <= s)%Z -> ~ inject_Z (2 ^ s) == 0.
Proof.
  intros Hs H. unfold Qeq in H. cbn [Qnum Qden inject_Z] in H.
  pose proof (Z.pow_pos_nonneg 2 s ltac:(lia) Hs). lia.
Qed.

(** An integer below [2^53] is a double. *)
Lemma round_small_integer (n : Z) :
  (0 <= n < 2 ^ 53)%Z -> round (inject_Z n) = Some (inject_Z n).
Proof.
  intros [Hlo Hhi].
  destruct (Z.eq_dec n 0) as [-> | Hnz]; [reflexivity |].
  assert (Hpos : (0 < n)%Z) by lia.
  pose proof (Z.log2_spec n Hpos) as [HL1 HL2].
  pose proof (Z.log2_nonneg n) as HL0.
  assert (HL : (Z.log2 n < 53)%Z) by (apply Z.log2_lt_pow2; assumption).
  set (s := (52 - Z.log2 n)%Z).
  assert (Hs : (0 <= s)%Z) by (unfold s; lia).
  assert (Hscaled : (2 ^ 52 <= n * 2 ^ s)%Z).
  { replace (2 ^ 52)%Z with (2 ^ Z.log2 n * 2 ^ s)%Z
      by (rewrite <- Z.pow_add_r by lia; f_equal; unfold s; lia).
    apply Z.mul_le_mono_nonneg_r; [apply Z.pow_nonneg; lia | assumption]. }
  assert (Hdiv : inject_Z n / pow2 (- s) == inject_Z (n * 2 ^ s)).
  { rewrite (pow2_pos_exp Hs), inject_Z_mult.
    field. now apply inject_Z_pow2_nonzero. }
  assert (He : ulp_exponent (inject_Z n) = (- s)%Z).
  { unfold ulp_exponent. cbn [Qnum Qden inject_Z Z.log2].
    replace (Z.log2 n - 0 - 52)%Z with (- s)%Z by (unfold s; lia).
    change (n # 1) with (inject_Z n).
    rewrite (Qleb_comp _ _ (Qeq_refl _) _ _ Hdiv).
    replace (Qle_bool (inject_Z (2 ^ 52)) (inject_Z (n * 2 ^ s))) with true
      by (symmetry; apply Qle_bool_iff; rewrite <- Zle_Qle; assumption).
    unfold s. lia. }
  assert (Hr : round_positive (inject_Z n) == inject_Z n).
  { unfold round_positive. rewrite He, (nearest_even_comp Hdiv).
    rewrite nearest_even_inject_Z, (pow2_pos_exp Hs), inject_Z_mult.
    field. now apply inject_Z_pow2_nonzero. }
  unfold round. rewrite Qred_inject_Z.
  destruct n as [| p | p]; try lia. cbn [Qnum inject_Z].
  change (Z.pos p # 1) with (inject_Z (Z.pos p)).
  rewrite (Qleb_comp _ _ (Qeq_refl _) _ _ (Qabs_wd _ _ Hr)).
  rewrite (Qred_complete _ _ Hr), Qred_inject_Z.
  destruct (Qle_bool (pow2 1024) (Qabs (inject_Z (Z.pos p)))) eqn:E;
    [| reflexivity].
  apply Qle_bool_iff in E.
  rewrite Qabs_pos in E by (unfold Qle; simpl; lia).
  change (pow2 1024) with (inject_Z (2 ^ 1024)) in E.
  rewrite <- Zle_Qle in E.
  assert ((2 ^ 53 < 2 ^ 1024)%Z) by (apply Z.pow_lt_mono_r; lia).
  lia.
Qed.

End Binary64Facts.

(** * Properties of HabitGraph.tsx *)

Module HabitGraphFacts.

Import HabitGraph RunsFacts.
Local Open Scope Q_scope.

Lemma marker_true (item : DataPoint) :
  marker item = true <-> 0 < completions item.
Proof.
  unfold marker, JS.gt. rewrite negb_true_iff.
  split; intro H.
  - apply Qnot_le_lt. intro Hle.
    apply Qle_bool_iff in Hle. congruence.
  - destruct (Qle_bool (completions item) 0) eqn:E; [| reflexivity].
    apply Qle_bool_iff in E. exfalso. exact (Qlt_not_le _ _ H E).
Qed.

Lemma marker_false (item : DataPoint) :
  marker item = false <-> ~ 0 < completions item.
Proof.
  rewrite <- marker_true. destruct (marker item); split; congruence.
Qed.

Lemma firstn_snoc (A : Type) (l : list A) :
  forall (i : nat) (x : A),
    nth_error l i = Some x -> firstn (S i) l = firstn i l ++ [x].
Proof.
  induction l as [| a l IH]; intros [| i] x H; simpl in *; try discriminate.
  - now injection H as ->.
  - f_equal. now apply IH.
Qed.

(** The loop adds to [streak] the length of the run of positive entries
    that ends at index [n - 1]. *)
Lemma calculateStreak_loop_spec (data : list DataPoint) :
  forall (n : nat) (streak : Z),
    (n <= List.length data)%nat ->
    calculateStreak_loop data n streak =
    (streak +
     Runs.leading (rev (map marker (firstn n data))))%Z.
Proof.
  induction n as [| i IH]; intros streak Hn.
  - simpl. lia.
  - destruct (nth_error data i) as [item |] eqn:Hi.
    + rewrite (firstn_snoc _ _ Hi), map_app, rev_app_distr.
      cbn [calculateStreak_loop map rev app Runs.leading].
      rewrite Hi. fold (marker item).
      destruct (marker item); [| lia].
      rewrite IH by lia. lia.
    + apply nth_error_None in Hi. lia.
Qed.

Lemma calculateStreak_walk (data : list DataPoint) :
  calculateStreak data =
  Runs.leading (rev (map marker data)).
Proof.
  unfold calculateStreak.
  rewrite calculateStreak_loop_spec by lia.
  now rewrite firstn_all.
Qed.

Lemma markers_of_completed (l : list DataPoint) :
  Forall (fun item => 0 < completions item) l ->
  Forall (fun b => b = true) (rev (map marker l)).
Proof.
  intro H. apply Forall_rev, Forall_map.
  eapply Forall_impl; [| exact H].
  intros item Hitem. now apply marker_true.
Qed.

(** A history without a gap: the streak is the number of days. *)
Lemma calculateStreak_no_gap (data : list DataPoint) :
  Forall (fun item => 0 < completions item) data ->
  calculateStreak data = Z.of_nat (List.length data).
Proof.
  intro H. rewrite calculateStreak_walk.
  rewrite <- (app_nil_r (rev (map marker data))).
  rewrite leading_run by now apply markers_of_completed.
  rewrite length_rev, length_map. simpl. lia.
Qed.

(** A history with a gap: only the days after the last gap count. *)
Lemma calculateStreak_after_gap (older recent : list DataPoint) (gap : DataPoint) :
  ~ 0 < completions gap ->
  Forall (fun item => 0 < completions item) recent ->
  calculateStreak (older ++ gap :: recent) = Z.of_nat (List.length recent).
Proof.
  intros Hgap Hrecent. rewrite calculateStreak_walk.
  rewrite map_app, rev_app_distr. cbn [map rev].
  rewrite <- !app_assoc.
  rewrite leading_run by now apply markers_of_completed.
  rewrite length_rev, length_map.
  apply marker_false in Hgap. cbn [app]. rewrite Hgap. simpl. lia.
Qed.

(** *** The generated sample data *)

Lemma sample_completions_range (r : Q) :
  0 <= r -> r < 1 ->
  2 <= JS.floor (r * 8) + 2 /\ JS.floor (r * 8) + 2 <= 9.
Proof.
  intros H0 H1. unfold JS.floor.
  assert (Hlo : (0 <= Qfloor (r * 8))%Z).
  { change 0%Z with (Qfloor 0). apply Qfloor_resp_le. lra. }
  assert (Hhi : (Qfloor (r * 8) < 8)%Z).
  { rewrite Zlt_Qlt. apply Qle_lt_trans with (r * 8).
    - apply Qfloor_le.
    - change (inject_Z 8) with 8. lra. }
  assert (Hhi' : (Qfloor (r * 8) <= 7)%Z) by lia.
  rewrite Zle_Qle in Hlo, Hhi'.
  change (inject_Z 0) with 0 in Hlo. change (inject_Z 7) with 7 in Hhi'.
  split; lra.
Qed.

Lemma generateSampleData_loop_shape (h : Host) :
  RandomOk h ->
  forall (n k : nat) (data : list DataPoint),
    Forall in_sample_range data ->
    Forall in_sample_range (generateSampleData_loop h n k data) /\
    List.length (generateSampleData_loop h n k data) =
    (List.length data + n)%nat.
Proof.
  intros Hr. induction n as [| i IH]; intros k data Hdata.
  - simpl. split; [assumption | lia].
  - cbn [generateSampleData_loop].
    destruct (IH (S k)
                (data ++
                 [ {| date := toLocaleDateString h (today h - Z.of_nat i);
                      completions := JS.floor (random h k * 8) + 2;
                      target := Some 7 |} ])) as [Hall Hlen].
    + apply Forall_app. split; [assumption |].
      constructor; [| constructor].
      destruct (Hr k) as [H0 H1].
      exact (sample_completions_range H0 H1).
    + split; [assumption |].
      rewrite Hlen, length_app. simpl. lia.
Qed.

Lemma generateSampleData_shape (h : Host) :
  RandomOk h ->
  Forall in_sample_range (generateSampleData h) /\
  List.length (generateSampleData h) = 14%nat.
Proof.
  intro Hr. unfold generateSampleData.
  destruct (generateSampleData_loop_shape Hr 14 0 (data := []))
    as [Hall Hlen]; [constructor |].
  split; [assumption | exact Hlen].
Qed.

Lemma sample_streak (h : Host) :
  RandomOk h -> calculateStreak (generateSampleData h) = 14%Z.
Proof.
  intro Hr. destruct (generateSampleData_shape Hr) as [Hall Hlen].
  rewrite calculateStreak_no_gap.
  - now rewrite Hlen.
  - eapply Forall_impl; [| exact Hall].
    intros item [Hlo _]. lra.
Qed.

(** *** Totals and averages *)

(** [lra] should see the length of a list as an unknown. *)
Ltac name_length l :=
  let n := fresh "len" in set (n := JS.length l) in *; clearbody n.

Lemma JS_length_cons (A : Type) (x : A) (l : list A) :
  JS.length (x :: l) == JS.length l + 1.
Proof.
  unfold JS.length. cbn [List.length].
  rewrite Nat2Z.inj_succ, <- Z.add_1_r, inject_Z_plus. reflexivity.
Qed.

Lemma JS_length_nonneg (A : Type) (l : list A) : 0 <= JS.length l.
Proof.
  unfold JS.length. change 0 with (inject_Z 0).
  rewrite <- Zle_Qle. lia.
Qed.

Lemma JS_length_pos (A : Type) (l : list A) : l <> [] -> 0 < JS.length l.
Proof.
  destruct l as [| x l]; [congruence | intros _].
  rewrite JS_length_cons. pose proof (JS_length_nonneg l).
  name_length l. lra.
Qed.

(** Adding up whole-number counts is exact as long as the sum stays below
    [2^53]. *)
Lemma exactTotal_nonneg (data : list DataPoint) :
  Forall Counts.whole data -> (0 <= Counts.exactTotal data)%Z.
Proof.
  induction 1 as [| item data [Hnn _] _ IH]; cbn [Counts.exactTotal map fold_right].
  - lia.
  - fold (Counts.exactTotal data).
    assert ((0 <= Qfloor (completions item))%Z).
    { change 0%Z with (Qfloor 0). now apply Qfloor_resp_le. }
    lia.
Qed.

Lemma fold_plus_exact (data : list DataPoint) :
  Forall Counts.whole data ->
  forall a : Z,
    (0 <= a)%Z -> (a + Counts.exactTotal data < 2 ^ 53)%Z ->
    fold_left (fun sum item => Binary64.plus sum (completions item))
              data (Some (inject_Z a)) =
    Some (inject_Z (a + Counts.exactTotal data)).
Proof.
  induction 1 as [| item data [Hnn Hwhole] Hrest IH]; intros a Ha Hsum;
    cbn [Counts.exactTotal map fold_right fold_left] in *.
  - now rewrite Z.add_0_r.
  - fold (Counts.exactTotal data) in *.
    pose proof (exactTotal_nonneg Hrest) as Hnn'.
    assert (Hz : (0 <= Qfloor (completions item))%Z).
    { change 0%Z with (Qfloor 0). now apply Qfloor_resp_le. }
    assert (Hstep :
              Binary64.plus (Some (inject_Z a)) (completions item) =
              Some (inject_Z (a + Qfloor (completions item)))).
    { cbn [Binary64.plus]. unfold Binary64.add.
      rewrite (Binary64Facts.round_comp
                 (x := inject_Z a + completions item)
                 (y := inject_Z (a + Qfloor (completions item)))).
      - apply Binary64Facts.round_small_integer. lia.
      - rewrite inject_Z_plus. rewrite Hwhole at 1. reflexivity. }
    rewrite Hstep, IH by lia. f_equal. f_equal. lia.
Qed.

Lemma calculateTotal_exact (data : list DataPoint) :
  Forall Counts.whole data ->
  (Counts.exactTotal data < 2 ^ 53)%Z ->
  calculateTotal data = Some (inject_Z (Counts.exactTotal data)).
Proof.
  intros Hall Hsum. unfold calculateTotal.
  change (Some 0) with (Some (inject_Z 0)).
  now rewrite (fold_plus_exact Hall (a := 0)) by lia.
Qed.

(** The generated counts are whole numbers. *)
Lemma sample_completions_whole (r : Q) :
  0 <= r -> Counts.whole {| date := EmptyString;
                            completions := JS.floor (r * 8) + 2;
                            target := None |}.
Proof.
  intro Hr. unfold Counts.whole, JS.floor. cbn [completions].
  assert (Hlo : (0 <= Qfloor (r * 8))%Z).
  { change 0%Z with (Qfloor 0). apply Qfloor_resp_le. lra. }
  assert (Heq : inject_Z (Qfloor (r * 8)) + 2 ==
                inject_Z (Qfloor (r * 8) + 2)).
  { rewrite inject_Z_plus. reflexivity. }
  split.
  - rewrite Heq. change 0 with (inject_Z 0). rewrite <- Zle_Qle. lia.
  - rewrite (Qfloor_comp _ _ Heq), Qfloor_Z. exact Heq.
Qed.

Lemma generateSampleData_loop_whole (h : Host) :
  RandomOk h ->
  forall (n k : nat) (data : list DataPoint),
    Forall Counts.whole data ->
    Forall Counts.whole (generateSampleData_loop h n k data).
Proof.
  intros Hr. induction n as [| i IH]; intros k data Hdata; [assumption |].
  cbn [generateSampleData_loop]. apply IH.
  apply Forall_app. split; [assumption |].
  constructor; [| constructor].
  exact (sample_completions_whole (proj1 (Hr k))).
Qed.

Lemma exactTotal_bounds (data : list DataPoint) :
  Forall in_sample_range data ->
  (2 * Z.of_nat (List.length data) <= Counts.exactTotal data /\
   Counts.exactTotal data <= 9 * Z.of_nat (List.length data))%Z.
Proof.
  induction 1 as [| item data [Hlo Hhi] _ IH];
    cbn [Counts.exactTotal map fold_right List.length].
  - lia.
  - fold (Counts.exactTotal data).
    assert ((2 <= Qfloor (completions item))%Z).
    { change 2%Z with (Qfloor 2). now apply Qfloor_resp_le. }
    assert ((Qfloor (completions item) <= 9)%Z).
    { change 9%Z with (Qfloor 9). now apply Qfloor_resp_le. }
    lia.
Qed.

(** Each possible total of the sample, divided by 14, rounds to a number
    from 2 to 9. *)
Lemma sample_quotients :
  forallb (fun total =>
             match Binary64.div (inject_Z (Z.of_nat total)) (inject_Z 14) with
             | Some avg => Qle_bool 2 avg && Qle_bool avg 9
             | None => false
             end)
          (seq 28 99) = true.
Proof. vm_compute. reflexivity. Qed.

Lemma sample_total (h : Host) :
  RandomOk h ->
  exists total : Z,
    (28 <= total <= 126)%Z /\
    calculateTotal (generateSampleData h) = Some (inject_Z total).
Proof.
  intro Hr. destruct (generateSampleData_shape Hr) as [Hall Hlen].
  pose proof (exactTotal_bounds Hall) as Hb. rewrite Hlen in Hb.
  exists (Counts.exactTotal (generateSampleData h)). split; [lia |].
  apply calculateTotal_exact.
  - apply generateSampleData_loop_whole; [assumption | constructor].
  - assert ((126 < 2 ^ 53)%Z) by reflexivity. lia.
Qed.

Lemma sample_average (h : Host) :
  RandomOk h ->
  exists avg : Q,
    calculateAverage (generateSampleData h) = Some avg /\
    2 <= avg /\ avg <= 9.
Proof.
  intro Hr. destruct (generateSampleData_shape Hr) as [_ Hlen].
  destruct (sample_total Hr) as (total & Hrange & Htotal).
  unfold calculateAverage, JS.length. rewrite Hlen, Htotal.
  cbn [Nat.eqb Binary64.over Z.of_nat Pos.of_succ_nat Pos.succ].
  pose proof sample_quotients as Hq. rewrite forallb_forall in Hq.
  specialize (Hq (Z.to_nat total)). rewrite Z2Nat.id in Hq by lia.
  assert (Hin : In (Z.to_nat total) (seq 28 99)) by (apply in_seq; lia).
  specialize (Hq Hin).
  destruct (Binary64.div (inject_Z total) (inject_Z 14)) as [avg |];
    [| discriminate].
  apply andb_true_iff in Hq. destruct Hq as [Hlo Hhi].
  exists avg. split; [reflexivity |].
  split; now apply Qle_bool_iff.
Qed.

(** *** The sample hosts respect the contract of [Math.random] *)

Lemma host_low_ok : RandomOk Samples.host_low.
Proof. intro k. split; [discriminate | reflexivity]. Qed.

Lemma host_alternating_ok : RandomOk Samples.host_alternating.
Proof.
  intro k. cbn [Samples.host_alternating random].
  destruct (Nat.even k); split; solve [discriminate | reflexivity].
Qed.

(** The total shown for an empty [data] prop follows the random draws. *)
Lemma sample_total_follows_random :
  totalCompletions (HabitGraph Samples.host_low dashboardProps) <>
  totalCompletions (HabitGraph Samples.host_alternating dashboardProps).
Proof. vm_compute. discriminate. Qed.

(** *** Statements about the streak, the average and the component *)

(** C1. The array holds one entry per calendar day, oldest first.  With
    completions on each of three consecutive days the streak is 3; when
    the middle day has none, the streak restarts and is 1; in general,
    after a day without completions only the unbroken run of later days
    counts. *)
Theorem calculateStreak_consecutive_days :
  (forall d0 d1 d2 : DataPoint,
      0 < completions d0 -> 0 < completions d1 -> 0 < completions d2 ->
      calculateStreak [d0; d1; d2] = 3%Z) /\
  (forall d0 d1 d2 : DataPoint,
      0 < completions d0 -> ~ 0 < completions d1 -> 0 < completions d2 ->
      calculateStreak [d0; d1; d2] = 1%Z) /\
  (forall (older recent : list DataPoint) (gap : DataPoint),
      ~ 0 < completions gap ->
      Forall (fun item => 0 < completions item) recent ->
      calculateStreak (older ++ gap :: recent) =
      Z.of_nat (List.length recent)).
Proof.
  split; [| split].
  - intros d0 d1 d2 H0 H1 H2.
    now rewrite calculateStreak_no_gap by (repeat constructor; assumption).
  - intros d0 d1 d2 _ H1 H2.
    change [d0; d1; d2] with ([d0] ++ d1 :: [d2]).
    now rewrite calculateStreak_after_gap by (repeat constructor; assumption).
  - intros older recent gap. apply calculateStreak_after_gap.
Qed.

Lemma calculateStreak_consecutive_days_witness :
  calculateStreak [Samples.day 1; Samples.day 2; Samples.day 1] = 3%Z /\
  calculateStreak [Samples.day 1; Samples.day 0; Samples.day 4] = 1%Z /\
  calculateStreak
    ([Samples.day 3; Samples.day 5] ++
     Samples.day 0 :: [Samples.day 1; Samples.day 2]) = 2%Z.
Proof.
  destruct calculateStreak_consecutive_days as (Hrun & Hgap & Hrecent).
  split; [| split].
  - apply Hrun; reflexivity.
  - apply Hgap; [reflexivity | discriminate | reflexivity].
  - apply (Hrecent [Samples.day 3; Samples.day 5]
                   [Samples.day 1; Samples.day 2] (Samples.day 0)).
    + discriminate.
    + repeat (constructor; [reflexivity |]). constructor.
Defined.

(** C3. The streak the component shows is a function of the [data] prop
    alone: whatever the clock says and whatever [Math.random] draws (also
    for the empty array, where the chart data is generated), two
    computations give the same streak. *)
Theorem HabitGraph_streak_deterministic
    (props : HabitGraphProps) (h1 h2 : Host) :
  RandomOk h1 -> RandomOk h2 ->
  currentStreak (HabitGraph h1 props) = currentStreak (HabitGraph h2 props).
Proof.
  intros Hr1 Hr2. unfold HabitGraph. cbn [currentStreak].
  destruct (Nat.ltb 0 (List.length (data props))).
  - reflexivity.
  - now rewrite !sample_streak.
Qed.

Lemma HabitGraph_streak_deterministic_witness :
  currentStreak (HabitGraph Samples.host_low dashboardProps) =
  currentStreak (HabitGraph Samples.host_alternating dashboardProps).
Proof.
  apply (HabitGraph_streak_deterministic dashboardProps).
  - exact host_low_ok.
  - exact host_alternating_ok.
Defined.

(** C10. [calculateAverage] is 0 on the empty list, where the quotient of
    the total by the length would be 0/0 and so not a number; on any other
    list it is the quotient of the total by the length, and that divisor is
    not zero: a finite total is divided and rounded, never divided by
    zero. *)
Theorem calculateAverage_guarded :
  calculateAverage [] = Some 0 /\
  Binary64.over (calculateTotal []) (JS.length (@nil DataPoint)) = None /\
  (forall data : list DataPoint,
      data <> [] ->
      calculateAverage data =
      Binary64.over (calculateTotal data) (JS.length data) /\
      ~ JS.length data == 0 /\
      (forall total : Q,
          calculateTotal data = Some total ->
          calculateAverage data = Binary64.round (total / JS.length data))).
Proof.
  split; [reflexivity |]. split; [reflexivity |].
  intros data Hdata.
  assert (Hnz : ~ JS.length data == 0).
  { pose proof (JS_length_pos Hdata) as Hpos.
    intro Hz. rewrite Hz in Hpos. discriminate. }
  assert (Hdef : calculateAverage data =
                 Binary64.over (calculateTotal data) (JS.length data)).
  { destruct data as [| item data]; [congruence | reflexivity]. }
  split; [assumption |]. split; [assumption |].
  intros total Htotal. rewrite Hdef, Htotal.
  cbn [Binary64.over]. unfold Binary64.div.
  destruct (Qeq_bool (JS.length data) 0) eqn:E; [| reflexivity].
  apply Qeq_bool_iff in E. contradiction.
Qed.

Lemma calculateAverage_guarded_witness :
  calculateAverage [Samples.day 3; Samples.day 4] =
  Binary64.over (calculateTotal [Samples.day 3; Samples.day 4])
                (JS.length [Samples.day 3; Samples.day 4]) /\
  ~ JS.length [Samples.day 3; Samples.day 4] == 0 /\
  (forall total : Q,
      calculateTotal [Samples.day 3; Samples.day 4] = Some total ->
      calculateAverage [Samples.day 3; Samples.day 4] =
      Binary64.round (total / JS.length [Samples.day 3; Samples.day 4])).
Proof.
  apply (proj2 (proj2 calculateAverage_guarded)
               [Samples.day 3; Samples.day 4]).
  discriminate.
Defined.

End HabitGraphFacts.

(** * Properties of Pet.tsx *)

Module PetFacts.

Import Pet.
Local Open Scope Q_scope.

Lemma ge_true (x y : Q) : JS.ge x y = true <-> y <= x.
Proof. unfold JS.ge. apply Qle_bool_iff. Qed.

Lemma ge_false (x y : Q) : JS.ge x y = false <-> x < y.
Proof.
  unfold JS.ge. split; intro H.
  - apply Qnot_le_lt. intro Hle. apply Qle_bool_iff in Hle. congruence.
  - destruct (Qle_bool y x) eqn:E; [| reflexivity].
    apply Qle_bool_iff in E. exfalso. exact (Qlt_not_le _ _ H E).
Qed.

(** Splits on the two comparisons of [getPetState], leaving the facts
    about [happiness] in the context. *)
Ltac by_thresholds h :=
  unfold getPetState;
  destruct (JS.ge h 80) eqn:H80;
  [ apply ge_true in H80
  | apply ge_false in H80;
    destruct (JS.ge h 50) eqn:H50;
    [ apply ge_true in H50 | apply ge_false in H50 ] ].

Lemma getPetState_happy (h : Q) : getPetState h = happy <-> 80 <= h.
Proof. by_thresholds h; split; intro H; try discriminate; trivial; lra. Qed.

Lemma getPetState_neutral (h : Q) :
  getPetState h = neutral <-> 50 <= h /\ h < 80.
Proof.
  by_thresholds h; split; intro H; try discriminate; try (split; lra);
    trivial; lra.
Qed.

Lemma getPetState_sad (h : Q) : getPetState h = sad <-> h < 50.
Proof. by_thresholds h; split; intro H; try discriminate; trivial; lra. Qed.

(** The component tests of Pet.test.tsx: the message shown for a happiness
    of 85, 60 and 30. *)
Example shows_happy_message :
  message (Pet Samples.pet_high) =
  "Your pet is thriving! Keep up the great work! ðŸŽ‰"%string.
Proof. reflexivity. Qed.

Example shows_neutral_message :
  message (Pet Samples.pet_medium) =
  "Your pet is doing okay. Complete more habits to boost happiness! ðŸ˜Š"%string.
Proof. reflexivity. Qed.

Example shows_sad_message :
  message (Pet Samples.pet_low) =
  "Your pet needs attention! Complete some habits to cheer them up. ðŸ¥º"%string.
Proof. reflexivity. Qed.

(** C9. [getPetState] splits the happiness values in three: happy from 80
    up, neutral from 50 up to (not including) 80, sad below 50; and two
    pets in the same state are drawn with the same colour, mouth and
    message, which the component computes from the state. *)
Theorem getPetState_partition :
  (forall h : Q, getPetState h = happy <-> 80 <= h) /\
  (forall h : Q, getPetState h = neutral <-> 50 <= h /\ h < 80) /\
  (forall h : Q, getPetState h = sad <-> h < 50) /\
  (forall p : PetProps,
      svg (Pet p) = renderPet (getPetState (happiness p)) /\
      message (Pet p) = statusMessage (getPetState (happiness p))) /\
  (forall p q : PetProps,
      getPetState (happiness p) = getPetState (happiness q) ->
      baseColor (svg (Pet p)) = baseColor (svg (Pet q)) /\
      mouthPath (svg (Pet p)) = mouthPath (svg (Pet q)) /\
      message (Pet p) = message (Pet q)).
Proof.
  split; [exact getPetState_happy |].
  split; [exact getPetState_neutral |].
  split; [exact getPetState_sad |].
  split.
  - intro p. split; reflexivity.
  - intros p q H. unfold Pet. cbn [svg message]. rewrite H.
    repeat split.
Qed.

Lemma getPetState_partition_witness :
  getPetState (happiness Samples.pet_high) = happy /\
  baseColor (svg (Pet Samples.pet_high)) =
  baseColor (svg (Pet Samples.pet_content)) /\
  mouthPath (svg (Pet Samples.pet_high)) =
  mouthPath (svg (Pet Samples.pet_content)) /\
  message (Pet Samples.pet_high) = message (Pet Samples.pet_content).
Proof.
  destruct getPetState_partition as (Hhappy & _ & _ & _ & Hsame).
  split.
  - apply Hhappy. discriminate.
  - apply Hsame. reflexivity.
Defined.

End PetFacts.

(** * Properties of the gamification engine *)

Module GamificationFacts.

Import GamificationEngine.
Local Open Scope Z_scope.

(** The function computes an exit state of the loop. *)
Lemma levelUp_sound (lvl xp : Z) : levelUp_loop (lvl, xp) (levelUp lvl xp).
Proof.
  funelim (levelUp lvl xp).
  - apply loop_iter; [lia | assumption].
  - apply loop_exit. lia.
Qed.

(** The loop has one exit state only. *)
Lemma levelUp_loop_functional (st out1 out2 : Z * Z) :
  levelUp_loop st out1 -> levelUp_loop st out2 -> out1 = out2.
Proof.
  intros H1. revert out2.
  induction H1 as [lvl xp Hlt | lvl xp out Hge _ IH]; intros out2 H2.
  - inversion H2; subst; [reflexivity | lia].
  - inversion H2; subst; [lia |]. now apply IH.
Qed.

Lemma levelUp_complete (lvl xp : Z) (out : Z * Z) :
  levelUp_loop (lvl, xp) out <-> out = levelUp lvl xp.
Proof.
  split.
  - intro H. exact (levelUp_loop_functional H (levelUp_sound lvl xp)).
  - intros ->. apply levelUp_sound.
Qed.

Lemma applyCompletion_fields (pet : PetState) :
  (level (applyCompletion pet), experience (applyCompletion pet)) =
  levelUp (level pet) (experience pet + 10) /\
  happiness (applyCompletion pet) = clamp (happiness pet + 2) 0 100.
Proof.
  unfold applyCompletion.
  destruct (levelUp (level pet) (experience pet + 10)) as [lvl xp].
  split; reflexivity.
Qed.

Lemma clamp_range (x lo hi : Z) :
  lo <= hi -> lo <= clamp x lo hi <= hi.
Proof. unfold clamp. lia. Qed.

(** C5. [applyCompletion] adds 10 to the experience and then runs the
    level-up loop to its exit: the new level and experience are the one
    pair the loop "while experience >= level * 100, take level * 100 off
    the experience and add 1 to the level" ends in.  From level 1 with 95
    experience, one completion gives level 2 with 5 experience. *)
Theorem applyCompletion_level_up :
  (forall (pet : PetState) (out : Z * Z),
      levelUp_loop (level pet, experience pet + 10) out <->
      out = (level (applyCompletion pet), experience (applyCompletion pet)))
  /\
  (forall mood : Z,
      let pet' :=
        applyCompletion {| level := 1; experience := 95; happiness := mood |}
      in experience pet' = 5 /\ level pet' = 2).
Proof.
  split.
  - intros pet out.
    destruct (applyCompletion_fields pet) as [-> _].
    apply levelUp_complete.
  - intros mood pet'.
    destruct (applyCompletion_fields
                {| level := 1; experience := 95; happiness := mood |})
      as [Hpair _].
    fold pet' in Hpair. cbn [level experience] in Hpair.
    replace (levelUp 1 (95 + 10)) with (2, 5) in Hpair
      by (vm_compute; reflexivity).
    split; [exact (f_equal snd Hpair) | exact (f_equal fst Hpair)].
Qed.

Lemma applyCompletion_level_up_witness :
  levelUp_loop (1, 95 + 10) (2, 5).
Proof.
  apply (proj1 applyCompletion_level_up
               {| level := 1; experience := 95; happiness := 50 |} (2, 5)).
  vm_compute. reflexivity.
Defined.

(** C6. One call sets the happiness to [clamp (happiness + 2) 0 100], and
    after any positive number of calls, from any starting state, the
    happiness lies between 0 and 100. *)
Theorem applyCompletion_happiness :
  forall pet : PetState,
    happiness (applyCompletion pet) = clamp (happiness pet + 2) 0 100 /\
    (forall n : nat,
        0 <= happiness (Nat.iter (S n) applyCompletion pet) <= 100).
Proof.
  intro pet. split.
  - apply applyCompletion_fields.
  - intro n. rewrite Nat.iter_succ.
    destruct (applyCompletion_fields (Nat.iter n applyCompletion pet))
      as [_ ->].
    apply clamp_range. lia.
Qed.

End GamificationFacts.

(** * Properties of the streak calculator *)

Module StreakFacts.

Import StreakCalculator RunsFacts.
Local Open Scope Z_scope.

(** The scenarios of the design's test list, on the UTC calendar: three
    consecutive days, a gap on the middle day, a lone completion in the
    open period under both readings, and a week with a target of 3. *)
Example three_consecutive_days :
  computeStreak Samples.utc [Samples.noon 10; Samples.noon 11; Samples.noon 12]
                daily 1 (12 * 86400 + 50000) optimistic =
  {| current := 3; longest := 3 |}.
Proof. vm_compute. reflexivity. Qed.

Example gap_on_middle_day :
  computeStreak Samples.utc [Samples.noon 10; Samples.noon 12]
                daily 1 (12 * 86400 + 50000) optimistic =
  {| current := 1; longest := 1 |}.
Proof. vm_compute. reflexivity. Qed.

Example lone_completion_today :
  computeStreak Samples.utc [Samples.noon 10] daily 1 (10 * 86400 + 50000)
                conservative = {| current := 0; longest := 0 |} /\
  computeStreak Samples.utc [Samples.noon 10] daily 1 (10 * 86400 + 50000)
                optimistic = {| current := 1; longest := 1 |}.
Proof. split; vm_compute; reflexivity. Qed.

Example weekly_target_of_three :
  satisfied Samples.utc weekly 3
            [Samples.noon 11; Samples.noon 12; Samples.noon 13]
            (Samples.utc weekly (12 * 86400)) = true /\
  satisfied Samples.utc weekly 3 [Samples.noon 11; Samples.noon 13]
            (Samples.utc weekly (12 * 86400)) = false.
Proof. split; vm_compute; reflexivity. Qed.

Lemma current_le_longest (markers : list bool) (policy : OpenPeriodPolicy) :
  let elapsed := removelast markers in
  match policy with
  | optimistic =>
      Runs.leading (rev (if last markers false then markers else elapsed)) <=
      Runs.longest markers
  | conservative => Runs.leading (rev elapsed) <= Runs.longest elapsed
  end.
Proof.
  intro elapsed. destruct policy.
  - destruct (last markers false).
    + apply leading_le_longest.
    + apply Z.le_trans with (Runs.longest elapsed).
      * apply leading_le_longest.
      * apply longest_removelast.
  - apply leading_le_longest.
Qed.

(** C4. Whatever the calendar, the events, the frequency rule, the target,
    the instant and the reading of the open period, the streaks that
    [computeStreak] returns satisfy [0 <= current <= longest]; and the
    streak that the chart's [calculateStreak] counts is likewise between 0
    and the longest run of the same per-day markers. *)
Theorem current_streak_le_longest_streak :
  (forall (period_of : Frequency -> Z -> Z) (events : list HabitEvent)
          (frequency : Frequency) (target_count now : Z)
          (policy : OpenPeriodPolicy),
      let s := computeStreak period_of events frequency target_count now policy in
      0 <= current s /\ current s <= longest s) /\
  (forall data : list HabitGraph.DataPoint,
      0 <= HabitGraph.calculateStreak data /\
      HabitGraph.calculateStreak data <=
      Runs.longest (map HabitGraph.marker data)).
Proof.
  split.
  - intros period_of events frequency target_count now policy s.
    subst s. unfold computeStreak.
    pose proof (current_le_longest
                  (normalize period_of events frequency target_count now)
                  policy) as H.
    cbv zeta in H.
    destruct policy; cbn [current longest];
      (split; [apply leading_nonneg | exact H]).
  - intro data. rewrite HabitGraphFacts.calculateStreak_walk.
    split; [apply leading_nonneg | apply leading_le_longest].
Qed.

End StreakFacts.

(** * Properties of the risk predictor *)

Module RiskFacts.

Import RiskPredictor.
Local Open Scope Q_scope.

Lemma clamp_unit (x : Q) : 0 <= clamp x 0 1 /\ clamp x 0 1 <= 1.
Proof.
  unfold clamp. split.
  - apply Q.le_max_l.
  - apply Q.max_lub; [discriminate | apply Q.le_min_r].
Qed.

(** A result comes from a parsed artifact of the supported version. *)
Lemma predict_inr (p : Predictor) (features : list Q) (r : PredictionResponse) :
  predict p features = inr r ->
  exists m : Model,
    artifact p = parsed m /\
    version m = supported_version p /\
    r = {| risk_score := clamp (probability m features) 0 1;
           success_probability := 1 - clamp (probability m features) 0 1;
           feature_importance := firstn 5 (ranking m);
           recommendation := recommend (clamp (probability m features) 0 1) |}.
Proof.
  unfold predict, load.
  destruct (artifact p) as [| | m]; try discriminate.
  destruct (Nat.eqb (version m) (supported_version p)) eqn:Hv;
    [| discriminate].
  intro H. injection H as <-.
  exists m. apply Nat.eqb_eq in Hv. repeat split. exact Hv.
Qed.

(** C7. Every result that [predict] returns has a risk score between 0
    and 1 and a success probability equal to one minus that score. *)
Theorem predict_risk_score_range
    (p : Predictor) (features : list Q) (r : PredictionResponse) :
  predict p features = inr r ->
  0 <= risk_score r /\ risk_score r <= 1 /\
  success_probability r = 1 - risk_score r.
Proof.
  intro H. destruct (predict_inr _ _ H) as (m & _ & _ & ->).
  cbn [risk_score success_probability].
  destruct (clamp_unit (probability m features)) as [Hlo Hhi].
  repeat split; assumption.
Qed.

Lemma predict_risk_score_range_witness :
  exists r : PredictionResponse,
    predict Samples.predictor_ready [] = inr r /\
    0 <= risk_score r /\ risk_score r <= 1 /\
    success_probability r = 1 - risk_score r.
Proof.
  eexists. split; [reflexivity |].
  apply (predict_risk_score_range Samples.predictor_ready []).
  reflexivity.
Defined.

(** C8. With the artifact missing, unreadable or of another version,
    [predict] returns the "model not ready" error, on every call and for
    every feature vector; and a result it does return carries the score
    of a parsed model of the supported version, never one made up. *)
Theorem predict_model_not_ready (p : Predictor) (features : list Q) :
  (artifact p = absent ->
   predict p features = inl (model_not_ready artifact_missing)) /\
  (artifact p = unreadable ->
   predict p features = inl (model_not_ready artifact_unreadable)) /\
  (forall m : Model,
      artifact p = parsed m -> version m <> supported_version p ->
      predict p features = inl (model_not_ready version_incompatible)) /\
  (forall r : PredictionResponse,
      predict p features = inr r ->
      exists m : Model,
        artifact p = parsed m /\
        version m = supported_version p /\
        risk_score r = clamp (probability m features) 0 1).
Proof.
  unfold predict at 1 2 3, load.
  split; [| split; [| split]].
  - now intros ->.
  - now intros ->.
  - intros m -> Hv. apply Nat.eqb_neq in Hv. now rewrite Hv.
  - intros r H. destruct (predict_inr _ _ H) as (m & Ha & Hv & ->).
    exists m. repeat split; assumption.
Qed.

Lemma predict_model_not_ready_witness :
  predict Samples.predictor_missing [1 # 2] =
  inl (model_not_ready artifact_missing) /\
  predict Samples.predictor_corrupt [1 # 2] =
  inl (model_not_ready artifact_unreadable) /\
  predict Samples.predictor_stale [1 # 2] =
  inl (model_not_ready version_incompatible).
Proof.
  split; [| split].
  - apply (proj1 (predict_model_not_ready Samples.predictor_missing [1 # 2])).
    reflexivity.
  - apply (proj1 (proj2 (predict_model_not_ready
                           Samples.predictor_corrupt [1 # 2]))).
    reflexivity.
  - apply (proj1 (proj2 (proj2 (predict_model_not_ready
                                  Samples.predictor_stale [1 # 2])))
             Samples.model_v1).
    + reflexivity.
    + discriminate.
Defined.

End RiskFacts.

(** * The empty history *)

Module EmptyHistory.

Import HabitGraph.
Local Open Scope Q_scope.

(** With the [data] prop empty, as the dashboard passes it, the component
    shows neither a streak of 0 nor an average of 0: the statistics are
    those of the generated sample (here a streak of 14, an average of 2). *)
Lemma HabitGraph_empty_data_not_zero :
  currentStreak (HabitGraph Samples.host_low dashboardProps) <> 0%Z /\
  exists avg : Q,
    dailyAverage (HabitGraph Samples.host_low dashboardProps) = Some avg /\
    ~ avg == 0.
Proof.
  split; [vm_compute; discriminate |].
  exists 2. split; [vm_compute; reflexivity | discriminate].
Qed.

(** C2 (amended). On an empty array the streak and the average are 0, and
    on an empty event history the engine's current and longest streaks are
    0; none of them fails.  The component, given an empty [data] prop,
    does not show these values: it generates 14 sample days, so the streak
    it shows is 14 and the average it shows lies between 2 and 9. *)
Theorem empty_history_defaults :
  calculateStreak [] = 0%Z /\
  calculateAverage [] = Some 0 /\
  (forall (period_of : StreakCalculator.Frequency -> Z -> Z)
          (frequency : StreakCalculator.Frequency) (target_count now : Z)
          (policy : StreakCalculator.OpenPeriodPolicy),
      StreakCalculator.computeStreak
        period_of [] frequency target_count now policy =
      {| StreakCalculator.current := 0; StreakCalculator.longest := 0 |}) /\
  (forall (h : Host) (props : HabitGraphProps),
      data props = [] -> RandomOk h ->
      currentStreak (HabitGraph h props) = 14%Z /\
      exists avg : Q,
        dailyAverage (HabitGraph h props) = Some avg /\
        2 <= avg /\ avg <= 9).
Proof.
  split; [reflexivity |]. split; [reflexivity |]. split.
  - intros period_of frequency target_count now [|]; reflexivity.
  - intros h props Hdata Hr. unfold HabitGraph.
    rewrite Hdata. cbn [List.length Nat.ltb Nat.leb currentStreak dailyAverage].
    split; [now apply HabitGraphFacts.sample_streak |].
    now apply HabitGraphFacts.sample_average.
Qed.

Lemma empty_history_defaults_witness :
  currentStreak (HabitGraph Samples.host_alternating dashboardProps) = 14%Z /\
  exists avg : Q,
    dailyAverage (HabitGraph Samples.host_alternating dashboardProps) =
    Some avg /\
    2 <= avg /\ avg <= 9.
Proof.
  apply (proj2 (proj2 (proj2 empty_history_defaults))
           Samples.host_alternating dashboardProps).
  - reflexivity.
  - exact HabitGraphFacts.host_alternating_ok.
Defined.

End EmptyHistory.

(** * More properties of HabitGraph.tsx *)

Module HabitGraphMore.

Import HabitGraph RunsFacts HabitGraphFacts.
Local Open Scope Q_scope.

Lemma leading_le_length (markers : list bool) :
  (Runs.leading markers <= Z.of_nat (List.length markers))%Z.
Proof.
  induction markers as [| [|] rest IH]; cbn [Runs.leading List.length]; lia.
Qed.

Lemma leading_full (markers : list bool) :
  Runs.leading markers = Z.of_nat (List.length markers) <->
  Forall (fun b => b = true) markers.
Proof.
  induction markers as [| b rest IH].
  - split; [constructor | reflexivity].
  - pose proof (leading_le_length rest) as Hle.
    pose proof (leading_nonneg rest) as Hnn.
    destruct b; cbn [Runs.leading List.length]; split; intro H.
    + constructor; [reflexivity |]. apply IH. lia.
    + inversion H as [| ? ? _ Hrest]; subst. apply IH in Hrest. lia.
    + lia.
    + inversion H as [| ? ? Hb _]; discriminate.
  Qed.

Lemma completed_markers (data : list DataPoint) :
  Forall (fun b => b = true) (rev (map marker data)) <->
  Forall (fun item => 0 < completions item) data.
Proof.
  split; intro H.
  - apply Forall_rev in H. rewrite rev_involutive in H.
    rewrite Forall_map in H.
    eapply Forall_impl; [| exact H].
    intros item Hitem. now apply marker_true.
  - now apply markers_of_completed.
Qed.

(** The streak is between 0 and the number of entries, and it equals the
    number of entries exactly when every entry has completions. *)
Theorem calculateStreak_range (data : list DataPoint) :
  (0 <= calculateStreak data <= Z.of_nat (List.length data))%Z /\
  (calculateStreak data = Z.of_nat (List.length data) <->
   Forall (fun item => 0 < completions item) data).
Proof.
  rewrite calculateStreak_walk.
  pose proof (leading_le_length (rev (map marker data))) as Hle.
  pose proof (leading_full (rev (map marker data))) as Hfull.
  rewrite length_rev, length_map in Hle, Hfull.
  split.
  - split; [apply leading_nonneg | exact Hle].
  - rewrite Hfull. apply completed_markers.
Qed.

(** Appending one more day: a day with completions lengthens the streak by
    one, a day without resets it to 0. *)
Theorem calculateStreak_next_day (data : list DataPoint) (item : DataPoint) :
  calculateStreak (data ++ [item]) =
  if JS.gt (completions item) 0 then (calculateStreak data + 1)%Z else 0%Z.
Proof.
  rewrite !calculateStreak_walk, map_app, rev_app_distr.
  cbn [map rev app Runs.leading]. fold (marker item).
  destruct (marker item); [lia | reflexivity].
Qed.

(** *** Totals of whole-number counts *)

Lemma exactTotal_app (older newer : list DataPoint) :
  Counts.exactTotal (older ++ newer) =
  (Counts.exactTotal older + Counts.exactTotal newer)%Z.
Proof.
  unfold Counts.exactTotal. rewrite map_app, fold_right_app.
  induction (map (fun item => Qfloor (completions item)) older) as [| z l IH];
    cbn [fold_right]; lia.
Qed.

Lemma exactTotal_permutation (data data' : list DataPoint) :
  Permutation data data' -> Counts.exactTotal data = Counts.exactTotal data'.
Proof.
  induction 1 as [| item l l' _ IH | x y l | l l' l'' _ IH1 _ IH2];
    unfold Counts.exactTotal in *; cbn [map fold_right]; lia.
Qed.

(** For whole-number counts whose sum stays below [2^53], the total is the
    exact sum: the total of two histories put together is the sum of their
    totals. *)
Theorem calculateTotal_app (older newer : list DataPoint) :
  Forall Counts.whole (older ++ newer) ->
  (Counts.exactTotal (older ++ newer) < 2 ^ 53)%Z ->
  calculateTotal older = Some (inject_Z (Counts.exactTotal older)) /\
  calculateTotal newer = Some (inject_Z (Counts.exactTotal newer)) /\
  calculateTotal (older ++ newer) =
  Some (inject_Z (Counts.exactTotal older + Counts.exactTotal newer)).
Proof.
  intros Hall Hsum.
  pose proof (proj1 (Forall_app _ _ _) Hall) as [Holder Hnewer].
  pose proof (exactTotal_nonneg Holder) as Ho.
  pose proof (exactTotal_nonneg Hnewer) as Hn.
  rewrite exactTotal_app in Hsum.
  repeat split.
  - apply calculateTotal_exact; [assumption | lia].
  - apply calculateTotal_exact; [assumption | lia].
  - rewrite <- exactTotal_app.
    apply calculateTotal_exact; [assumption |].
    rewrite exactTotal_app. lia.
Qed.

Lemma calculateTotal_app_witness :
  calculateTotal ([Samples.day 3] ++ [Samples.day 0; Samples.day 4]) =
  Some (inject_Z (3 + 4)).
Proof.
  apply (calculateTotal_app [Samples.day 3] [Samples.day 0; Samples.day 4]).
  - repeat (constructor; [split; [discriminate | reflexivity] |]).
    constructor.
  - reflexivity.
Defined.

(** For whole-number counts whose sum stays below [2^53], the total does
    not depend on the order of the entries. *)
Theorem calculateTotal_permutation (data data' : list DataPoint) :
  Permutation data data' ->
  Forall Counts.whole data ->
  (Counts.exactTotal data < 2 ^ 53)%Z ->
  calculateTotal data = calculateTotal data'.
Proof.
  intros Hperm Hall Hsum.
  rewrite (calculateTotal_exact Hall Hsum).
  symmetry. rewrite (exactTotal_permutation Hperm) in *.
  apply calculateTotal_exact; [| assumption].
  eapply Permutation_Forall; eassumption.
Qed.

Lemma calculateTotal_permutation_witness :
  calculateTotal [Samples.day 3; Samples.day 0; Samples.day 4] =
  calculateTotal [Samples.day 4; Samples.day 3; Samples.day 0].
Proof.
  apply calculateTotal_permutation.
  - apply Permutation_sym, (Permutation_cons_append [_; _] (Samples.day 4)).
  - repeat (constructor; [split; [discriminate | reflexivity] |]).
    constructor.
  - reflexivity.
Defined.

(** *** The generated sample and the data given *)

(** The sample has an entry for each of the 14 days that end today: entry
    [j] is dated [13 - j] days ago, takes its completions from the [j]-th
    random draw and has the target 7. *)
Theorem generateSampleData_entry (h : Host) (j : nat) :
  (j < 14)%nat ->
  nth_error (generateSampleData h) j =
  Some {| date := toLocaleDateString h (today h - Z.of_nat (13 - j));
          completions := JS.floor (random h j * 8) + 2;
          target := Some 7 |}.
Proof.
  intro Hj.
  do 14 (destruct j as [| j]; [reflexivity |]). lia.
Qed.

Lemma generateSampleData_entry_witness :
  nth_error (generateSampleData Samples.host_alternating) 13 =
  Some {| date := EmptyString;
          completions := JS.floor ((1 # 8) * 8) + 2;
          target := Some 7 |}.
Proof.
  apply (generateSampleData_entry Samples.host_alternating (j := 13)). lia.
Defined.

(** With a non-empty [data] prop the component charts exactly that data,
    and nothing it shows depends on the clock or on the random source. *)
Theorem HabitGraph_uses_given_data (props : HabitGraphProps) (h1 h2 : Host) :
  data props <> [] ->
  chartData (HabitGraph h1 props) = data props /\
  HabitGraph h1 props = HabitGraph h2 props.
Proof.
  intro Hdata. unfold HabitGraph.
  destruct (data props) as [| item rest]; [congruence |].
  split; reflexivity.
Qed.

Lemma HabitGraph_uses_given_data_witness :
  HabitGraph Samples.host_low
    {| data := [Samples.day 3]; type := Some bar; title := None |} =
  HabitGraph Samples.host_alternating
    {| data := [Samples.day 3]; type := Some bar; title := None |}.
Proof.
  apply (HabitGraph_uses_given_data
           {| data := [Samples.day 3]; type := Some bar; title := None |}).
  discriminate.
Defined.

End HabitGraphMore.

(** * More properties of Pet.tsx *)

Module PetMore.

Import Pet PetFacts.
Local Open Scope Q_scope.

(** The colour of the happiness bar always agrees with the pet's state:
    green for happy, yellow for neutral, red for sad. *)
Theorem happinessBar_agrees_with_state (p : PetProps) :
  happinessBar (Pet p) =
  match state (Pet p) with
  | happy => "bg-green-500"%string
  | neutral => "bg-yellow-500"%string
  | sad => "bg-red-500"%string
  end.
Proof.
  unfold Pet, happinessBarClass, getPetState. cbn [happinessBar state].
  destruct (JS.ge (happiness p) 80); [reflexivity |].
  destruct (JS.ge (happiness p) 50); reflexivity.
Qed.

(** More happiness never gives a worse state. *)
Theorem getPetState_monotone (h1 h2 : Q) :
  h1 <= h2 ->
  (PetOrder.rank (getPetState h1) <= PetOrder.rank (getPetState h2))%nat.
Proof.
  intro Hle.
  destruct (getPetState h1) eqn:E1, (getPetState h2) eqn:E2;
    cbn [PetOrder.rank]; try lia;
    first [ apply getPetState_happy in E1 | apply getPetState_neutral in E1
          | apply getPetState_sad in E1 ];
    first [ apply getPetState_happy in E2 | apply getPetState_neutral in E2
          | apply getPetState_sad in E2 ];
    exfalso; lra.
Qed.

Lemma getPetState_monotone_witness :
  (PetOrder.rank (getPetState 49) <= PetOrder.rank (getPetState 50))%nat.
Proof. apply getPetState_monotone. discriminate. Defined.



End PetMore.

(** * Properties of HabitCard.tsx *)

Module HabitCardFacts.

Import HabitCard.
Local Open Scope Q_scope.

Lemma le_level (level : Z) (rating : Q) :
  JSValue.le (inject_Z level) rating = (level <=? Qfloor rating)%Z.
Proof.
  unfold JSValue.le.
  destruct (Z.leb_spec level (Qfloor rating)) as [H | H].
  - apply Qle_bool_iff.
    apply Qle_trans with (inject_Z (Qfloor rating)).
    + now rewrite <- Zle_Qle.
    + apply Qfloor_le.
  - destruct (Qle_bool (inject_Z level) rating) eqn:E; [| reflexivity].
    apply Qle_bool_iff, Qfloor_resp_le in E. rewrite Qfloor_Z in E. lia.
Qed.

(** A rating bar has five segments, the coloured ones first; their number
    is the rating rounded down, kept between 0 and 5, so a rating outside
    1..5 still draws a well-formed bar. *)
Theorem ratingBar_filled (rating : Q) :
  let filled := Z.to_nat (Z.max 0 (Z.min (Qfloor rating) 5)) in
  ratingBar rating = repeat true filled ++ repeat false (5 - filled).
Proof.
  unfold ratingBar. cbn [map].
  change 1 with (inject_Z 1). change 2 with (inject_Z 2).
  change 3 with (inject_Z 3). change 4 with (inject_Z 4).
  change 5 with (inject_Z 5).
  rewrite !le_level.
  set (f := Qfloor rating).
  assert (Hcases : (f <= 0 \/ f = 1 \/ f = 2 \/ f = 3 \/ f = 4 \/ 5 <= f)%Z)
    by lia.
  destruct Hcases as [H | [H | [H | [H | [H | H]]]]];
    try (rewrite H; reflexivity).
  - replace (Z.max 0 (Z.min f 5)) with 0%Z by lia.
    repeat match goal with
           | |- context [(?a <=? f)%Z] =>
               destruct (Z.leb_spec a f); [lia |]
           end.
    reflexivity.
  - replace (Z.max 0 (Z.min f 5)) with 5%Z by lia.
    repeat match goal with
           | |- context [(?a <=? f)%Z] =>
               destruct (Z.leb_spec a f); [| lia]
           end.
    reflexivity.
Qed.

End HabitCardFacts.

(** * Properties of services/api.ts *)

Module ApiFacts.

Import Api.
Local Open Scope string_scope.

(** *** The key-value store *)

Lemma getItem_removeItem (key : string) (store : Store) :
  getItem key (removeItem key store) = None.
Proof.
  unfold removeItem.
  induction store as [| [k v] rest IH]; [reflexivity |].
  cbn [filter fst]. destruct (String.eqb k key) eqn:E; cbn [negb].
  - exact IH.
  - cbn [getItem]. rewrite E. exact IH.
Qed.

Lemma getItem_removeItem_other (key other : string) (store : Store) :
  other <> key ->
  getItem other (removeItem key store) = getItem other store.
Proof.
  intro Hne. unfold removeItem.
  induction store as [| [k v] rest IH]; [reflexivity |].
  cbn [filter fst]. destruct (String.eqb k key) eqn:E; cbn [negb getItem].
  - apply String.eqb_eq in E. subst k.
    destruct (String.eqb key other) eqn:E'; [| exact IH].
    apply String.eqb_eq in E'. congruence.
  - now rewrite IH.
Qed.

Lemma getItem_setItem (key value : string) (store : Store) :
  getItem key (setItem key value store) = Some value.
Proof. unfold setItem. cbn [getItem]. now rewrite String.eqb_refl. Qed.

Lemma getItem_setItem_other (key other value : string) (store : Store) :
  other <> key ->
  getItem other (setItem key value store) = getItem other store.
Proof.
  intro Hne. unfold setItem. cbn [getItem].
  destruct (String.eqb key other) eqn:E.
  - apply String.eqb_eq in E. congruence.
  - now apply getItem_removeItem_other.
Qed.

Lemma truthy_some (s : string) : JSValue.truthy (Some s) = true <-> s <> "".
Proof.
  cbn [JSValue.truthy]. rewrite negb_true_iff.
  split; intro H.
  - intros ->. discriminate.
  - now apply String.eqb_neq.
Qed.

(** *** The interceptors *)

Lemma request_interceptor_target (b : Browser) (config : Request) :
  method (request_interceptor b config) = method config /\
  url (request_interceptor b config) = url config /\
  body (request_interceptor b config) = body config.
Proof.
  unfold request_interceptor.
  destruct (getItem "token" (localStorage b)) as [token |];
    [destruct (JSValue.truthy (Some token)) |]; repeat split.
Qed.

Lemma request_interceptor_without_token (b : Browser) (config : Request) :
  JSValue.truthy (getItem "token" (localStorage b)) = false ->
  request_interceptor b config = config.
Proof.
  unfold request_interceptor.
  destruct (getItem "token" (localStorage b)) as [token |]; [| reflexivity].
  now intros ->.
Qed.

Lemma getItem_removeItem_none (key other : string) (store : Store) :
  JSValue.truthy (getItem key store) = false ->
  JSValue.truthy (getItem key (removeItem other store)) = false.
Proof.
  intro H. destruct (String.eqb_spec key other) as [-> | Hne].
  - now rewrite getItem_removeItem.
  - now rewrite getItem_removeItem_other.
Qed.

Lemma config_of_no_credentials (X : Type) (e : Endpoint X) :
  getItem "Authorization" (headers (config_of e)) = None.
Proof. destruct e; reflexivity. Qed.

(** A request leaves with the header [Authorization: Bearer <token>]
    exactly when a non-empty token is stored; without one the request is
    sent as it is; and in either case the method, the address, the body
    and every other header are those of the caller. *)
Theorem request_interceptor_authorization (b : Browser) (config : Request) :
  (forall token : string,
      getItem "token" (localStorage b) = Some token -> token <> "" ->
      getItem "Authorization" (headers (request_interceptor b config)) =
      Some ("Bearer " ++ token)) /\
  (JSValue.truthy (getItem "token" (localStorage b)) = false ->
   request_interceptor b config = config) /\
  method (request_interceptor b config) = method config /\
  url (request_interceptor b config) = url config /\
  body (request_interceptor b config) = body config /\
  (forall name : string,
      name <> "Authorization" ->
      getItem name (headers (request_interceptor b config)) =
      getItem name (headers config)).
Proof.
  unfold request_interceptor.
  destruct (getItem "token" (localStorage b)) as [token |] eqn:Htoken.
  - destruct (JSValue.truthy (Some token)) eqn:Htruthy.
    + cbn [headers method url body]. repeat split.
      * intros t Ht _. injection Ht as <-. apply getItem_setItem.
      * discriminate.
      * intros name Hname. now apply getItem_setItem_other.
    + repeat split; try reflexivity.
      intros t Ht Hne. injection Ht as <-.
      apply truthy_some in Hne. congruence.
  - repeat split; try reflexivity. discriminate.
Qed.

Lemma request_interceptor_authorization_witness :
  getItem "Authorization"
    (headers (request_interceptor Samples.browser_in (config_of getDashboard))) =
  Some "Bearer abc.def.ghi" /\
  request_interceptor Samples.browser_out (config_of getDashboard) =
  config_of getDashboard.
Proof.
  destruct (request_interceptor_authorization
              Samples.browser_in (config_of getDashboard)) as (Hin & _).
  destruct (request_interceptor_authorization
              Samples.browser_out (config_of getDashboard)) as (_ & Hout & _).
  split.
  - apply (Hin "abc.def.ghi"); [reflexivity | discriminate].
  - apply Hout. reflexivity.
Defined.

(** A call that fails with status 401 ends the session: the caller still
    gets the error, the token is gone (the other stored keys are kept),
    the browser is sent to [/login], and requests made afterwards carry no
    credentials. *)
Theorem unauthorized_ends_session
    (X : Type) (answer : Request -> Outcome X) (b : Browser)
    (config : Request) (err : AxiosError) :
  answer (request_interceptor b config) = rejected err ->
  status err = Some 401%Z ->
  let '(_, outcome, b') := send answer b config in
  outcome = rejected err /\
  getItem "token" (localStorage b') = None /\
  href b' = "/login" /\
  (forall key : string,
      key <> "token" ->
      getItem key (localStorage b') = getItem key (localStorage b)) /\
  (forall next : Request, request_interceptor b' next = next).
Proof.
  intros Hanswer Hstatus. unfold send. rewrite Hanswer.
  unfold response_interceptor. rewrite Hstatus. cbn [Z.eqb Pos.eqb].
  repeat split.
  - apply getItem_removeItem.
  - intros key Hkey. now apply getItem_removeItem_other.
  - intro next. unfold request_interceptor. cbn [localStorage].
    now rewrite getItem_removeItem.
Qed.

Lemma unauthorized_ends_session_witness :
  getItem "token"
    (localStorage
       (snd (send (fun _ => rejected (X := unit) Samples.error_401)
                  Samples.browser_in (config_of (deleteHabit 42))))) = None.
Proof.
  pose proof (@unauthorized_ends_session
                unit (fun _ => rejected Samples.error_401)
                Samples.browser_in (config_of (deleteHabit 42))
                Samples.error_401 eq_refl eq_refl) as H.
  destruct (send (fun _ => rejected (X := unit) Samples.error_401)
                 Samples.browser_in (config_of (deleteHabit 42)))
    as [[request outcome] b'].
  exact (proj1 (proj2 H)).
Defined.

(** A failure that is not a 401 (another status, or no response at all)
    and a success leave the browser as it was. *)
Theorem other_outcomes_keep_session
    (X : Type) (answer : Request -> Outcome X) (b : Browser)
    (config : Request) :
  (forall err : AxiosError,
      answer (request_interceptor b config) = rejected err ->
      status err <> Some 401%Z) ->
  snd (send answer b config) = b.
Proof.
  intro Hother. unfold send.
  destruct (answer (request_interceptor b config)) as [x | err] eqn:E;
    [reflexivity |].
  cbn [snd]. unfold response_interceptor.
  specialize (Hother err eq_refl).
  destruct (status err) as [code |]; [| reflexivity].
  destruct (Z.eqb_spec code 401); [congruence | reflexivity].
Qed.

Lemma other_outcomes_keep_session_witness :
  snd (send (fun _ => rejected (X := unit) Samples.error_offline)
            Samples.browser_in (config_of (deleteHabit 42))) =
  Samples.browser_in.
Proof.
  apply other_outcomes_keep_session.
  intros err H. injection H as <-. discriminate.
Defined.

End ApiFacts.

(** * Properties of pages/Dashboard.tsx *)

Module DashboardFacts.

Import Async Api Dashboard ApiFacts.
Local Open Scope string_scope.

(** *** Running programs *)

Lemma run_bind (A B : Type) (env : Env) (p : Prog Effect A)
    (f : A -> Prog Effect B) :
  forall w : World,
    run env (bind p f) w = run env (f (fst (run env p w))) (snd (run env p w)).
Proof.
  induction p as [a | X e k IH]; intro w.
  - reflexivity.
  - cbn [bind run]. destruct (perform env e w) as [x w1]. apply IH.
Qed.

Lemma run_trigger (X : Type) (env : Env) (e : Effect X) (w : World) :
  run env (trigger e) w = perform env e w.
Proof.
  unfold trigger. cbn [run]. now destruct (perform env e w).
Qed.

Lemma after_bind (A : Type) (env : Env) (p : Prog Effect A)
    (f : A -> Handler) (w : World) :
  after env (bind p f) w =
  after env (f (fst (run env p w))) (snd (run env p w)).
Proof. unfold after. now rewrite run_bind. Qed.

(** The world after a call, for each kind of reply. *)
Lemma perform_call (X : Type) (env : Env) (ep : Endpoint X) (w : World) :
  let request := request_interceptor (browser w) (config_of ep) in
  perform env (call ep) w =
  match network env (sent w) ep request with
  | resolved x =>
      (resolved x,
       {| state := state w; browser := browser w;
          sent := (sent w ++ [request])%list;
          failures := (failures w ++ [])%list;
          alerts := alerts w; console := console w |})
  | rejected err =>
      (rejected err,
       {| state := state w;
          browser := response_interceptor err (browser w);
          sent := (sent w ++ [request])%list;
          failures := (failures w ++ [err])%list;
          alerts := alerts w; console := console w |})
  end.
Proof.
  intro request. cbn [perform]. unfold send. fold request.
  destruct (network env (sent w) ep request); reflexivity.
Qed.

Lemma or_else_nonempty (v : option string) (fallback : string) :
  fallback <> "" -> JSValue.or_else v fallback <> "".
Proof.
  intro Hf. destruct v as [s |]; cbn [JSValue.or_else]; [| exact Hf].
  destruct (String.eqb_spec s ""); assumption.
Qed.

(** *** loadDashboard *)

Lemma loadDashboard_rejected (env : Env) (w : World) (err : AxiosError) :
  network env (sent w) getDashboard
          (request_interceptor (browser w) (config_of getDashboard)) =
  rejected err ->
  after env loadDashboard w =
  {| state :=
       {| dashboardData := dashboardData (state w);
          loading := false;
          error := Some (JSValue.or_else (detail err)
                                         "Failed to load dashboard") |};
     browser := response_interceptor err (browser w);
     sent :=
       (sent w ++
        [request_interceptor (browser w) (config_of getDashboard)])%list;
     failures := (failures w ++ [err])%list;
     alerts := alerts w;
     console := (console w ++ ["Dashboard error:"])%list |}.
Proof.
  intro Hnet. unfold loadDashboard.
  rewrite after_bind, run_trigger. cbn [perform fst snd].
  rewrite after_bind, run_trigger, perform_call.
  cbn [with_state sent browser]. rewrite Hnet. cbn [fst snd].
  reflexivity.
Qed.

Lemma loadDashboard_resolved
    (env : Env) (w : World) (data : option DashboardData.DashboardData) :
  network env (sent w) getDashboard
          (request_interceptor (browser w) (config_of getDashboard)) =
  resolved data ->
  after env loadDashboard w =
  {| state := {| dashboardData := data; loading := false; error := None |};
     browser := browser w;
     sent :=
       (sent w ++
        [request_interceptor (browser w) (config_of getDashboard)])%list;
     failures := (failures w ++ [])%list;
     alerts := alerts w;
     console := console w |}.
Proof.
  intro Hnet. unfold loadDashboard.
  rewrite after_bind, run_trigger. cbn [perform fst snd].
  rewrite after_bind, run_trigger, perform_call.
  cbn [with_state sent browser]. rewrite Hnet. cbn [fst snd].
  reflexivity.
Qed.

(** A failed load always ends on the error screen: loading is over, the
    message is the server's detail or, when that is missing or empty,
    "Failed to load dashboard" (so never empty), data loaded earlier stays
    in the state but is not shown, and one request was sent. *)
Theorem loadDashboard_failure
    (env : Env) (w : World) (err : AxiosError) (host : HabitGraph.Host) :
  network env (sent w) getDashboard
          (request_interceptor (browser w) (config_of getDashboard)) =
  rejected err ->
  let w' := after env loadDashboard w in
  let message := JSValue.or_else (detail err) "Failed to load dashboard" in
  message <> "" /\
  state w' = {| dashboardData := dashboardData (state w);
                loading := false;
                error := Some message |} /\
  Dashboard host (state w') = error_screen message /\
  sent w' =
  (sent w ++ [request_interceptor (browser w) (config_of getDashboard)])%list.
Proof.
  intros Hnet w' message.
  assert (Hmsg : message <> "") by (apply or_else_nonempty; discriminate).
  subst w'. rewrite (loadDashboard_rejected _ _ Hnet). cbn [state sent].
  fold message. repeat split; try assumption.
  unfold Dashboard. cbn [loading error].
  now rewrite (proj2 (truthy_some message) Hmsg).
Qed.

Lemma loadDashboard_failure_witness :
  Dashboard Samples.host_low
    (state (after (Samples.failing Samples.error_500) loadDashboard
                  Samples.world_in)) =
  error_screen "Failed to load dashboard".
Proof.
  apply (loadDashboard_failure
           (Samples.failing Samples.error_500) Samples.world_in
           (err := Samples.error_500) Samples.host_low).
  reflexivity.
Defined.

(** A successful load shows the main screen: loading is over, an earlier
    error is cleared, the browser is untouched, and there is one card per
    habit, each with a delete button and no edit button; the empty-state
    card appears exactly when there are no habits. *)
Theorem loadDashboard_success
    (env : Env) (w : World) (data : DashboardData.DashboardData)
    (host : HabitGraph.Host) :
  network env (sent w) getDashboard
          (request_interceptor (browser w) (config_of getDashboard)) =
  resolved (Some data) ->
  let w' := after env loadDashboard w in
  state w' = {| dashboardData := Some data; loading := false; error := None |} /\
  browser w' = browser w /\
  exists view : MainView,
    Dashboard host (state w') = main_screen view /\
    List.length (cards view) = List.length (DashboardData.habits data) /\
    Forall (fun card => HabitCard.editButton card = false /\
                        HabitCard.deleteButton card = true) (cards view) /\
    (emptyState view = true <-> DashboardData.habits data = []).
Proof.
  intros Hnet w'. subst w'. rewrite (loadDashboard_resolved _ _ Hnet).
  cbn [state browser]. repeat split.
  unfold Dashboard, content. cbn [loading error dashboardData].
  eexists. split; [reflexivity |]. cbn [cards emptyState].
  split; [apply length_map |]. split.
  - apply Forall_map, Forall_forall. intros habit _. split; reflexivity.
  - destruct (DashboardData.habits data); cbn; split; congruence.
Qed.

Lemma loadDashboard_success_witness :
  state (after Samples.flaky loadDashboard Samples.world_in) =
  {| dashboardData := Some Samples.dashboard_ada;
     loading := false; error := None |}.
Proof.
  apply (loadDashboard_success Samples.flaky Samples.world_in
           (data := Samples.dashboard_ada) Samples.host_low).
  reflexivity.
Defined.

(** Once a load has returned the spinner is gone, and what the page shows
    follows the reply: the main screen for a reply with dashboard data, the
    error screen for a failed call, and nothing at all for a successful
    reply whose body is [null]. *)
Theorem loadDashboard_settles
    (env : Env) (w : World) (host : HabitGraph.Host) :
  let reply :=
    network env (sent w) getDashboard
            (request_interceptor (browser w) (config_of getDashboard)) in
  let screen := Dashboard host (state (after env loadDashboard w)) in
  screen <> loading_screen /\
  ((exists view : MainView, screen = main_screen view) <->
   (exists data : DashboardData.DashboardData, reply = resolved (Some data))) /\
  ((exists message : string, screen = error_screen message) <->
   (exists err : AxiosError, reply = rejected err)) /\
  (screen = nothing <-> reply = resolved None).
Proof.
  intros reply screen. subst screen.
  destruct reply as [[data |] | err] eqn:Hnet; subst reply.
  - rewrite (loadDashboard_resolved _ _ Hnet).
    unfold Dashboard, content. cbn [state loading error dashboardData].
    split; [discriminate |]. split; [| split].
    + split; intros _; eexists; reflexivity.
    + split; [intros [message H] | intros [err H]]; discriminate.
    + split; discriminate.
  - rewrite (loadDashboard_resolved _ _ Hnet).
    unfold Dashboard, content. cbn [state loading error dashboardData].
    split; [discriminate |]. split; [| split].
    + split; [intros [view H] | intros [data H]]; discriminate.
    + split; [intros [message H] | intros [err H]]; discriminate.
    + split; reflexivity.
  - rewrite (loadDashboard_rejected _ _ Hnet).
    unfold Dashboard. cbn [state loading error].
    rewrite (proj2 (truthy_some _))
      by (apply or_else_nonempty; discriminate).
    split; [discriminate |]. split; [| split].
    + split; [intros [view H] | intros [data H]]; discriminate.
    + split; intros _; eexists; reflexivity.
    + split; discriminate.
Qed.

(** *** handleCompleteHabit and handleDeleteHabit *)

(** When logging the completion fails, the page does not reload: its state
    is as before, the one request sent is the POST, and the alert shows the
    server's detail or "Failed to complete habit". *)
Theorem handleCompleteHabit_failure
    (env : Env) (w : World) (habitId : Z) (err : AxiosError) :
  let post :=
    request_interceptor
      (browser w) (config_of (createHabitEvent habitId completionEvent)) in
  network env (sent w) (createHabitEvent habitId completionEvent) post =
  rejected err ->
  let w' := after env (handleCompleteHabit habitId) w in
  state w' = state w /\
  sent w' = (sent w ++ [post])%list /\
  alerts w' =
  (alerts w ++
   [JSValue.or_else (detail err) "Failed to complete habit"])%list /\
  JSValue.or_else (detail err) "Failed to complete habit" <> "".
Proof.
  intros post Hnet w'. subst w'. unfold handleCompleteHabit.
  rewrite after_bind, run_trigger, perform_call.
  fold post. rewrite Hnet. cbn [fst snd].
  unfold after. rewrite run_trigger. cbn [perform snd state sent alerts].
  repeat split. apply or_else_nonempty. discriminate.
Qed.

Lemma handleCompleteHabit_failure_witness :
  alerts (after (Samples.failing Samples.error_401)
                (handleCompleteHabit 42) Samples.world_in) =
  ["Could not validate credentials"].
Proof.
  apply (handleCompleteHabit_failure
           (Samples.failing Samples.error_401) Samples.world_in 42
           (err := Samples.error_401)).
  reflexivity.
Defined.

(** When logging the completion succeeds, the page sends the POST and then
    reloads the dashboard, and it announces "Habit completed!" whether or
    not that reload succeeds; loading is over at the end. *)
Theorem handleCompleteHabit_success
    (env : Env) (w : World) (habitId : Z) (event : HabitEvent.HabitEvent) :
  let post :=
    request_interceptor
      (browser w) (config_of (createHabitEvent habitId completionEvent)) in
  network env (sent w) (createHabitEvent habitId completionEvent) post =
  resolved event ->
  let w' := after env (handleCompleteHabit habitId) w in
  alerts w' = (alerts w ++ ["Habit completed! 🎉"])%list /\
  loading (state w') = false /\
  exists reload : Request,
    sent w' = (sent w ++ [post; reload])%list /\
    method reload = GET /\ url reload = "/dashboard".
Proof.
  intros post Hnet w'. subst w'. unfold handleCompleteHabit.
  rewrite after_bind, run_trigger, perform_call.
  fold post. rewrite Hnet. cbn [fst snd].
  rewrite after_bind.
  match goal with
  | |- context [run env loadDashboard ?w1] =>
      change (snd (run env loadDashboard w1)) with (after env loadDashboard w1);
      set (middle := w1)
  end.
  assert (Hreload :
            method (request_interceptor (browser middle)
                                        (config_of getDashboard)) = GET /\
            url (request_interceptor (browser middle)
                                     (config_of getDashboard)) = "/dashboard").
  { destruct (request_interceptor_target
                (browser middle) (config_of getDashboard)) as (Hm & Hu & _).
    now rewrite Hm, Hu. }
  unfold after at 1. rewrite run_trigger. cbn [perform snd].
  destruct (network env (sent middle) getDashboard
              (request_interceptor (browser middle) (config_of getDashboard)))
    as [data | err] eqn:Hload.
  - rewrite (loadDashboard_resolved _ _ Hload).
    cbn [alerts state loading sent]. repeat split.
    eexists. split; [| exact Hreload].
    subst middle. cbn [sent]. now rewrite <- app_assoc.
  - rewrite (loadDashboard_rejected _ _ Hload).
    cbn [alerts state loading sent]. repeat split.
    eexists. split; [| exact Hreload].
    subst middle. cbn [sent]. now rewrite <- app_assoc.
Qed.

Lemma handleCompleteHabit_success_witness :
  alerts (after Samples.flaky (handleCompleteHabit 42) Samples.world_in) =
  ["Habit completed! 🎉"] /\
  error (state (after Samples.flaky (handleCompleteHabit 42) Samples.world_in))
  = Some "Failed to load dashboard".
Proof.
  split.
  - apply (handleCompleteHabit_success
             Samples.flaky Samples.world_in 42 (event := Samples.event_logged)).
    reflexivity.
  - reflexivity.
Defined.

(** A deletion the user declines changes nothing and sends nothing; one
    the user confirms but the server refuses leaves the page state as it
    was, sends only the DELETE and shows the server's detail or "Failed to
    delete habit". *)
Theorem handleDeleteHabit_guarded (env : Env) (w : World) (habitId : Z) :
  let question := "Are you sure you want to delete this habit?" in
  let delete :=
    request_interceptor (browser w) (config_of (deleteHabit habitId)) in
  let w' := after env (handleDeleteHabit habitId) w in
  (answers env (sent w) question = false -> w' = w) /\
  (forall err : AxiosError,
      answers env (sent w) question = true ->
      network env (sent w) (deleteHabit habitId) delete = rejected err ->
      state w' = state w /\
      sent w' = (sent w ++ [delete])%list /\
      alerts w' =
      (alerts w ++ [JSValue.or_else (detail err) "Failed to delete habit"])%list).
Proof.
  intros question delete w'. subst w'. unfold handleDeleteHabit.
  rewrite after_bind, run_trigger. cbn [perform fst snd]. fold question.
  split.
  - intros ->. reflexivity.
  - intros err -> Hnet. cbn [negb].
    rewrite after_bind, run_trigger, perform_call.
    fold delete. rewrite Hnet. cbn [fst snd].
    unfold after. rewrite run_trigger. cbn [perform snd state sent alerts].
    repeat split.
Qed.

Lemma handleDeleteHabit_guarded_witness :
  after Samples.flaky (handleDeleteHabit 42) Samples.world_in =
  Samples.world_in /\
  sent (after (Samples.failing Samples.error_offline)
              (handleDeleteHabit 42) Samples.world_out) =
  [config_of (deleteHabit 42)].
Proof.
  split.
  - apply (proj1 (handleDeleteHabit_guarded
                    Samples.flaky Samples.world_in 42)).
    reflexivity.
  - apply (proj2 (handleDeleteHabit_guarded
                    (Samples.failing Samples.error_offline)
                    Samples.world_out 42)
             Samples.error_offline); reflexivity.
Defined.

(** *** What no handler can do *)

(** Without a usable token in the browser, whatever the page's code does
    (any program made of its effects), the browser still has none
    afterwards and none of the requests sent carries an [Authorization]
    header. *)
Theorem no_token_no_credentials
    (A : Type) (p : Prog Effect A) (env : Env) :
  forall w : World,
    App.checkAuth (browser w) = false ->
    App.checkAuth (browser (snd (run env p w))) = false /\
    exists new : list Request,
      sent (snd (run env p w)) = (sent w ++ new)%list /\
      Forall (fun request => getItem "Authorization" (headers request) = None)
             new.
Proof.
  unfold App.checkAuth.
  induction p as [a | X e k IH]; intros w Hout.
  - cbn [run snd]. split; [assumption |].
    exists []. split; [now rewrite app_nil_r | constructor].
  - cbn [run].
    assert (Hstep :
              JSValue.truthy
                (getItem "token"
                   (localStorage (browser (snd (perform env e w))))) = false /\
              exists new : list Request,
                sent (snd (perform env e w)) = (sent w ++ new)%list /\
                Forall (fun request =>
                          getItem "Authorization" (headers request) = None)
                       new).
    { destruct e; try (cbn [perform snd browser sent with_state with_browser];
                       split; [assumption |];
                       exists []; split; [now rewrite app_nil_r | constructor]).
      - rewrite perform_call.
        rewrite (request_interceptor_without_token _ _ Hout).
        destruct (network env (sent w) e (config_of e)) as [x | err];
          cbn [snd browser sent].
        + split; [assumption |].
          exists [config_of e]. split; [reflexivity |].
          constructor; [apply config_of_no_credentials | constructor].
        + split.
          * unfold response_interceptor.
            destruct (status err) as [code |]; [| assumption].
            destruct (Z.eqb code 401); [| assumption].
            cbn [localStorage]. now rewrite getItem_removeItem.
          * exists [config_of e]. split; [reflexivity |].
            constructor; [apply config_of_no_credentials | constructor].
      - cbn [perform snd browser sent with_browser localStorage].
        split; [now apply getItem_removeItem_none |].
        exists []. split; [now rewrite app_nil_r | constructor]. }
    destruct (perform env e w) as [x w1]. cbn [snd] in Hstep.
    destruct Hstep as [Hout1 (new1 & Hsent1 & Hnew1)].
    destruct (IH x w1 Hout1) as [Hout' (new' & Hsent' & Hnew')].
    split; [assumption |].
    exists (new1 ++ new')%list. split.
    + now rewrite Hsent', Hsent1, app_assoc.
    + now apply Forall_app.
Qed.

Lemma no_token_no_credentials_witness :
  App.checkAuth
    (browser (snd (run Samples.flaky (handleCompleteHabit 42)
                       Samples.world_out))) = false.
Proof.
  apply (no_token_no_credentials
           (handleCompleteHabit 42) Samples.flaky Samples.world_out).
  reflexivity.
Defined.

Lemma stays_bind (A B : Type) (p : Prog Effect A) (f : A -> Prog Effect B) :
  stays p -> (forall a : A, stays (f a)) -> stays (bind p f).
Proof.
  intros Hp Hf. induction Hp as [a | X e k He _ IH]; cbn [bind].
  - apply Hf.
  - now constructor.
Qed.

Lemma stays_trigger (X : Type) (e : Effect X) :
  navigates e = false -> stays (trigger e).
Proof. intro He. constructor; [assumption | intro x; constructor]. Qed.

Lemma loadDashboard_stays : stays loadDashboard.
Proof.
  unfold loadDashboard.
  repeat first [ apply stays_bind | apply stays_trigger; reflexivity
               | intro | match goal with
                         | |- stays (match ?o with _ => _ end) => destruct o
                         end ].
Qed.

Lemma handleCompleteHabit_stays (habitId : Z) :
  stays (handleCompleteHabit habitId).
Proof.
  unfold handleCompleteHabit.
  apply stays_bind; [apply stays_trigger; reflexivity |].
  intros [event | err].
  - apply stays_bind; [apply loadDashboard_stays |].
    intro. apply stays_trigger. reflexivity.
  - apply stays_trigger. reflexivity.
Qed.

Lemma handleDeleteHabit_stays (habitId : Z) :
  stays (handleDeleteHabit habitId).
Proof.
  unfold handleDeleteHabit.
  apply stays_bind; [apply stays_trigger; reflexivity |].
  intros [|]; cbn [negb]; [| constructor].
  apply stays_bind; [apply stays_trigger; reflexivity |].
  intros [done | err]; [apply loadDashboard_stays |].
  apply stays_trigger. reflexivity.
Qed.

Lemma expired_after_401 (err : AxiosError) (b : Browser) :
  unauthorized err -> expired (response_interceptor err b).
Proof.
  unfold unauthorized, response_interceptor. intros ->.
  cbn [Z.eqb Pos.eqb]. split; [apply getItem_removeItem | reflexivity].
Qed.

Lemma expired_kept (err : AxiosError) (b : Browser) :
  expired b -> expired (response_interceptor err b).
Proof.
  intros [Htoken Hhref]. unfold response_interceptor.
  destruct (status err) as [code |]; [| now split].
  destruct (Z.eqb code 401); [| now split].
  split; [apply getItem_removeItem | reflexivity].
Qed.

Lemma getItem_removeItem_absent (key other : string) (store : Store) :
  getItem key store = None -> getItem key (removeItem other store) = None.
Proof.
  intro H. destruct (String.eqb_spec key other) as [-> | Hne].
  - apply getItem_removeItem.
  - now rewrite getItem_removeItem_other.
Qed.

Lemma stays_keeps_expired (A : Type) (p : Prog Effect A) (env : Env) :
  stays p ->
  forall w : World,
    expired (browser w) -> expired (browser (snd (run env p w))).
Proof.
  induction 1 as [a | X e k He _ IH]; intros w Hexp; [assumption |].
  cbn [run].
  assert (Hstep : expired (browser (snd (perform env e w)))).
  { destruct e; try discriminate He;
      try (cbn [perform snd browser with_state]; assumption).
    - rewrite perform_call.
      destruct (network env (sent w) e _) as [x | err]; cbn [snd browser].
      + assumption.
      + now apply expired_kept.
    - cbn [perform snd browser with_browser]. destruct Hexp as [Ht Hh].
      split; [now apply getItem_removeItem_absent | assumption]. }
  destruct (perform env e w) as [x w1]. now apply IH.
Qed.

Lemma stays_tracks_failures (A : Type) (p : Prog Effect A) (env : Env) :
  stays p ->
  forall w : World,
    exists errs : list AxiosError,
      failures (snd (run env p w)) = (failures w ++ errs)%list /\
      (Exists unauthorized errs -> expired (browser (snd (run env p w)))).
Proof.
  induction 1 as [a | X e k He Hk IH]; intro w.
  - exists []. cbn [run snd]. split; [now rewrite app_nil_r |].
    intro Hex. inversion Hex.
  - cbn [run].
    assert (Hstep :
              exists errs : list AxiosError,
                failures (snd (perform env e w)) = (failures w ++ errs)%list /\
                (Exists unauthorized errs ->
                 expired (browser (snd (perform env e w))))).
    { destruct e; try discriminate He;
        try (exists []; cbn [perform snd failures with_state with_browser];
             split; [now rewrite app_nil_r | intro Hex; inversion Hex]).
      rewrite perform_call.
      destruct (network env (sent w) e _) as [x | err];
        cbn [snd failures browser].
      - exists []. split; [reflexivity | intro Hex; inversion Hex].
      - exists [err]. split; [reflexivity |].
        intro Hex. inversion Hex as [? ? Herr | ? ? Hnil]; subst.
        + now apply expired_after_401.
        + inversion Hnil. }
    destruct (perform env e w) as [x w1]. cbn [snd] in Hstep.
    destruct Hstep as (errs1 & Hf1 & Hexp1).
    destruct (IH x w1) as (errs' & Hf' & Hexp').
    exists (errs1 ++ errs')%list. split.
    + now rewrite Hf', Hf1, app_assoc.
    + intro Hex. apply Exists_app in Hex. destruct Hex as [Hex | Hex].
      * apply stays_keeps_expired; [apply Hk | now apply Hexp1].
      * now apply Hexp'.
Qed.

(** If any call made while loading, completing or deleting is answered
    with a 401, then at the end of the handler the token is gone and the
    browser is at the login page, whatever else happened in between. *)
Theorem session_expiry
    (env : Env) (w : World) (habitId : Z) (handler : Handler) :
  In handler
     [loadDashboard; handleCompleteHabit habitId; handleDeleteHabit habitId] ->
  let w' := after env handler w in
  exists errs : list AxiosError,
    failures w' = (failures w ++ errs)%list /\
    (Exists unauthorized errs ->
     expired (browser w') /\ App.checkAuth (browser w') = false).
Proof.
  intros Hin w'. subst w'. unfold after.
  assert (Hstays : stays handler).
  { cbn [In] in Hin. destruct Hin as [<- | [<- | [<- | []]]].
    - apply loadDashboard_stays.
    - apply handleCompleteHabit_stays.
    - apply handleDeleteHabit_stays. }
  destruct (stays_tracks_failures env Hstays w) as (errs & Hf & Hexp).
  exists errs. split; [assumption |].
  intro Hex. specialize (Hexp Hex). split; [assumption |].
  unfold App.checkAuth. destruct Hexp as [-> _]. reflexivity.
Qed.

Lemma session_expiry_witness :
  expired (browser (after (Samples.failing Samples.error_401)
                          (handleCompleteHabit 42) Samples.world_in)).
Proof.
  destruct (@session_expiry (Samples.failing Samples.error_401)
                            Samples.world_in 42%Z (handleCompleteHabit 42)
                            (or_intror (or_introl eq_refl)))
    as (errs & Hfailures & Hexpired).
  apply Hexpired. cbn [app Samples.world_in failures] in Hfailures.
  rewrite <- Hfailures.
  change (Exists unauthorized [Samples.error_401]).
  constructor. reflexivity.
Defined.

End DashboardFacts.

(** * Properties of App.tsx *)

Module AppFacts.

Import Api App.
Local Open Scope string_scope.

Section Routes.

Variable matchRoute : string -> RouteMatch.
Hypothesis root_matches : matchRoute "/" = root_route.
Hypothesis login_matches : matchRoute "/login" = login_route.

Lemma settle_reaches_page (authenticated : bool) (path : string) (more : nat) :
  settle matchRoute (2 + more) authenticated path =
  Some (if authenticated then DashboardPage else Login).
Proof.
  cbn [settle Nat.add].
  destruct authenticated, (matchRoute path);
    cbn [App]; rewrite ?root_matches, ?login_matches; cbn [App];
    try reflexivity;
    destruct more; cbn [settle]; rewrite ?root_matches, ?login_matches;
    reflexivity.
Qed.

End Routes.

(** Wherever the browser is, the routes settle after at most two redirects:
    on the dashboard for an authenticated user, on the login page
    otherwise; there is no redirect loop, and no path shows the dashboard
    without authentication. *)
Theorem routes_settle
    (matchRoute : string -> RouteMatch) (authenticated : bool)
    (path : string) (more : nat) :
  matchRoute "/" = root_route ->
  matchRoute "/login" = login_route ->
  settle matchRoute (2 + more) authenticated path =
  Some (if authenticated then DashboardPage else Login).
Proof. intros Hroot Hlogin. now apply settle_reaches_page. Qed.

Lemma routes_settle_witness :
  settle literalRoutes 2 false "/habits/42" = Some Login.
Proof.
  apply (routes_settle literalRoutes false "/habits/42" 0); reflexivity.
Defined.

(** Logging out sends no request and leaves the page state alone, removes
    the token and moves the browser to [/login], where the application,
    started afresh, shows the login page. *)
Theorem logout_leads_to_login
    (matchRoute : string -> RouteMatch) (env : Dashboard.Env)
    (w : Dashboard.World) :
  matchRoute "/login" = login_route ->
  let w' := Dashboard.after env Dashboard.logout w in
  Dashboard.state w' = Dashboard.state w /\
  Dashboard.sent w' = Dashboard.sent w /\
  Dashboard.expired (Dashboard.browser w') /\
  App (Some (checkAuth (Dashboard.browser w')))
      (matchRoute (href (Dashboard.browser w'))) = Login.
Proof.
  intro Hlogin. cbn. unfold Dashboard.expired, checkAuth.
  cbn [localStorage href].
  rewrite ApiFacts.getItem_removeItem, Hlogin. repeat split.
Qed.

Lemma logout_leads_to_login_witness :
  Dashboard.expired
    (Dashboard.browser
       (Dashboard.after Samples.flaky Dashboard.logout Samples.world_in)).
Proof.
  apply (logout_leads_to_login literalRoutes Samples.flaky Samples.world_in).
  reflexivity.
Defined.

End AppFacts.
